(** * The upload-and-generate controller of [app/static/js/main.js]

    A shallow embedding of the browser-side controller: the selection list
    ([selectedFiles]), the DOM properties the script writes, the calls to
    [alert] and [fetch] as traces, and the functions [addFiles],
    [removeFile], [renderSelectedFiles], [updateGenerateButton],
    [formatFileSize], [generateTestCases], [updateProgress] and
    [displayResults].

    Conventions.
    - A JavaScript string is a [string] that holds its bytes in UTF-8, as
      the source file holds its literals; a surrogate that is not part of a
      pair is written in three bytes like any other code unit.  Strings are
      compared as bytes, and concatenated as bytes: in every concatenation
      of the script one of the two sides is an ASCII literal.  [length] and
      [substring] count UTF-16 code units, read from the bytes
      ([JS.codeUnits]).
    - A file size and an index produced by [map] are non-negative integers
      ([N]); the index that a caller gives to [removeFile] is any integer
      ([Z]).
    - The response of the server is typed as the endpoint documents it: the
      flags are booleans and an item carries the fields of a success or those
      of a failure.  Its numbers are kept abstract: their type and their
      conversion to a string are variables of the section [Generation].
    - An awaited promise is an input: [Settled] tells whether it is fulfilled
      or rejected.  [generateTestCases] is split where it awaits [fetch], and
      the callback given to [setTimeout] is returned to the caller.
    - [formatFileSize] computes on IEEE doubles in the script.  The embedding
      computes on integers: [Math.floor(Math.log(bytes) / Math.log(k))] is
      the integer logarithm of [bytes] in base [k], and
      [Math.round(bytes / Math.pow(k, i) * 100) / 100], converted to a
      string, is the quotient rounded half up to hundredths and written
      without trailing zeros.  This is what the doubles compute for every
      size below 1024^4, the sizes for which the table of units has a unit.
      Above, the quotient of the two logarithms can round up to the next
      integer (it does just below 1024^5), so for those sizes the two
      computations on doubles are parameters ([formatFileSizeWith]). *)

From Stdlib Require Import List String Ascii Bool NArith ZArith Lia DecimalString.
Import ListNotations.

Local Open Scope string_scope.

(** ** JavaScript primitives used by the script *)

Module JS.

(** The double quote and the line feed, for the HTML templates. *)
Definition dq : string := String (Ascii false true false false false true false false) EmptyString.
Definition nl : string := String (Ascii false true false true false false false false) EmptyString.

(** [q s] is [s] between double quotes, as an HTML attribute value. *)
Definition q (s : string) : string := dq ++ s ++ dq.

(** [ToString] of a non-negative integer. *)
Definition natToString (n : N) : string := NilZero.string_of_uint (N.to_uint n).

(** [ToString] of the number [h / 100], for [h] a non-negative integer:
    the shortest decimal, without trailing zeros. *)
Definition hundredthsToString (h : N) : string :=
  let whole := (h / 100)%N in
  let frac := (h mod 100)%N in
  if (frac =? 0)%N then natToString whole
  else if (frac mod 10 =? 0)%N then natToString whole ++ "." ++ natToString (frac / 10)
  else natToString whole ++ "." ++ natToString (frac / 10) ++ natToString (frac mod 10).

(** [ToString] of the result of an array read: a string, or [undefined]
    when the index is out of bounds. *)
Definition stringOrUndefined (v : option string) : string :=
  match v with
  | Some s => s
  | None => "undefined"
  end.

(** [Math.floor(Math.log(n) / Math.log(k))] for integers [n >= 1], [k >= 2],
    computed exactly: the number of times [n] can be divided by [k] before it
    drops below [k].  The doubles of the script give this for [k = 1024] and
    [n < 1024 ^ 4]. *)
Fixpoint floorLogAux (fuel : nat) (k n : N) : N :=
  match fuel with
  | O => 0
  | S fuel' => if (n <? k)%N then 0%N else (1 + floorLogAux fuel' k (n / k))%N
  end.

Definition floorLog (k n : N) : N := floorLogAux (N.to_nat (N.size n)) k n.

(** [Math.round(a / b)] for non-negative integers, [b > 0]: nearest integer,
    a half rounds up. *)
Definition roundDiv (a b : N) : N := ((2 * a + b) / (2 * b))%N.

(** The UTF-16 code units of a string.  A [string] holds the bytes of the
    generalised UTF-8 of a JavaScript string: a code unit below 128 is one
    byte, one below 2048 two bytes, a surrogate pair four bytes, any other
    code unit (a lone surrogate too) three bytes.  A byte that starts no such
    sequence is read as U+FFFD; no JavaScript string has one. *)
Definition isContinuation (b : N) : bool := ((128 <=? b) && (b <? 192))%N.

Definition isHighSurrogate (u : N) : bool := ((55296 <=? u) && (u <? 56320))%N.

Definition isLowSurrogate (u : N) : bool := ((56320 <=? u) && (u <? 57344))%N.

Fixpoint decodeUnits (bytes : list N) : list N :=
  match bytes with
  | [] => []
  | b0 :: rest =>
      if (b0 <? 128)%N then b0 :: decodeUnits rest
      else
        match rest with
        | [] => [65533%N]
        | b1 :: rest1 =>
            if ((192 <=? b0) && (b0 <? 224))%N && isContinuation b1 then
              N.lor (N.shiftl (N.land b0 31) 6) (N.land b1 63) :: decodeUnits rest1
            else
              match rest1 with
              | [] => 65533%N :: decodeUnits rest
              | b2 :: rest2 =>
                  if ((224 <=? b0) && (b0 <? 240))%N && isContinuation b1
                     && isContinuation b2 then
                    N.lor (N.shiftl (N.land b0 15) 12)
                      (N.lor (N.shiftl (N.land b1 63) 6) (N.land b2 63))
                      :: decodeUnits rest2
                  else
                    match rest2 with
                    | [] => 65533%N :: decodeUnits rest
                    | b3 :: rest3 =>
                        if ((240 <=? b0) && (b0 <? 248))%N && isContinuation b1
                           && isContinuation b2 && isContinuation b3 then
                          let codePoint :=
                            N.lor (N.shiftl (N.land b0 7) 18)
                              (N.lor (N.shiftl (N.land b1 63) 12)
                                 (N.lor (N.shiftl (N.land b2 63) 6) (N.land b3 63))) in
                          let offset := (codePoint - 65536)%N in
                          (55296 + N.shiftr offset 10)%N
                            :: (56320 + N.land offset 1023)%N
                            :: decodeUnits rest3
                        else 65533%N :: decodeUnits rest
                    end
              end
        end
  end.

Fixpoint encodeUnits (units : list N) : list N :=
  match units with
  | [] => []
  | u :: rest =>
      if (u <? 128)%N then u :: encodeUnits rest
      else if (u <? 2048)%N then
        N.lor 192 (N.shiftr u 6) :: N.lor 128 (N.land u 63) :: encodeUnits rest
      else
        let three :=
          [N.lor 224 (N.shiftr u 12);
           N.lor 128 (N.land (N.shiftr u 6) 63);
           N.lor 128 (N.land u 63)] in
        match rest with
        | [] => three
        | v :: rest' =>
            if isHighSurrogate u && isLowSurrogate v then
              let codePoint := (65536 + N.shiftl (u - 55296) 10 + (v - 56320))%N in
              N.lor 240 (N.shiftr codePoint 18)
                :: N.lor 128 (N.land (N.shiftr codePoint 12) 63)
                :: N.lor 128 (N.land (N.shiftr codePoint 6) 63)
                :: N.lor 128 (N.land codePoint 63)
                :: encodeUnits rest'
            else (three ++ encodeUnits rest)%list
        end
  end.

Definition codeUnits (s : string) : list N :=
  decodeUnits (map N_of_ascii (list_ascii_of_string s)).

Definition fromCodeUnits (units : list N) : string :=
  string_of_list_ascii (map ascii_of_N (encodeUnits units)).

(** [s] holds the bytes of a JavaScript string: reading its code units and
    writing them back gives [s]. *)
Definition wellEncoded (s : string) : Prop := fromCodeUnits (codeUnits s) = s.

(** [s.length]: the number of code units. *)
Definition length (s : string) : nat := List.length (codeUnits s).

(** [String.prototype.substring(start, end)], on code units. *)
Definition substring (s : string) (start end_ : Z) : string :=
  let len := Z.of_nat (length s) in
  let finalStart := Z.min (Z.max start 0) len in
  let finalEnd := Z.min (Z.max end_ 0) len in
  let from := Z.min finalStart finalEnd in
  let to := Z.max finalStart finalEnd in
  fromCodeUnits (firstn (Z.to_nat (to - from)) (skipn (Z.to_nat from) (codeUnits s))).

(** [String.prototype.endsWith(searchString)], on the bytes: the same as on
    the code units for a search string that does not begin with the second
    half of a surrogate pair, as ".pdf". *)
Definition endsWith (s searchString : string) : bool :=
  let len := Z.of_nat (String.length s) in
  let searchLength := Z.of_nat (String.length searchString) in
  let start := (len - searchLength)%Z in
  if (start <? 0)%Z then false
  else String.eqb (String.substring (Z.to_nat start) (String.length searchString) s) searchString.

(** [Array.prototype.splice(start, deleteCount)]: the array after the call,
    and the removed elements.  A negative [start] counts from the end. *)
Definition splice {A : Type} (arr : list A) (start deleteCount : Z) : list A * list A :=
  let len := Z.of_nat (List.length arr) in
  let actualStart :=
    if (start <? 0)%Z then Z.max (len + start) 0 else Z.min start len in
  let actualDeleteCount := Z.min (Z.max deleteCount 0) (len - actualStart) in
  ((firstn (Z.to_nat actualStart) arr
      ++ skipn (Z.to_nat (actualStart + actualDeleteCount)) arr)%list,
   firstn (Z.to_nat actualDeleteCount) (skipn (Z.to_nat actualStart) arr)).

(** [Array.prototype.map] with the index, and [join('')]. *)
Fixpoint mapi_from {A B : Type} (i : N) (f : A -> N -> B) (l : list A) : list B :=
  match l with
  | [] => []
  | x :: l' => f x i :: mapi_from (N.succ i) f l'
  end.

Definition mapi {A B : Type} (f : A -> N -> B) (l : list A) : list B := mapi_from 0 f l.

Definition join (l : list string) : string := fold_right String.append "" l.

End JS.

(** ** Files and [formatFileSize] *)

Record File := {
  name : string;
  size : N;
  type : string;
}.

Definition sizes : list string := ["Bytes"; "KB"; "MB"; "GB"].

(** The index [i] that [formatFileSize] computes for a non-zero size below
    1024^4. *)
Definition unitIndex (bytes : N) : N := JS.floorLog 1024 bytes.

Definition formatFileSize (bytes : N) : string :=
  if (bytes =? 0)%N then "0 Bytes"
  else
    let k := 1024%N in
    let i := JS.floorLog k bytes in
    JS.hundredthsToString (JS.roundDiv (bytes * 100) (k ^ i))
      ++ " " ++ JS.stringOrUndefined (nth_error sizes (N.to_nat i)).

(** [formatFileSize] with its two computations on doubles left open:
    [index bytes] for [Math.floor(Math.log(bytes) / Math.log(k))] and
    [amount bytes i] for [Math.round(bytes / Math.pow(k, i) * 100) / 100]
    converted to a string.  It serves for the sizes from 1024^4 on, where
    the exact computations of [formatFileSize] are not those of the
    doubles. *)
Definition formatFileSizeWith (index : N -> N) (amount : N -> N -> string)
    (bytes : N) : string :=
  if (bytes =? 0)%N then "0 Bytes"
  else
    let i := index bytes in
    amount bytes i ++ " " ++ JS.stringOrUndefined (nth_error sizes (N.to_nat i)).

(** The amount as [formatFileSize] computes it. *)
Definition exactAmount (bytes i : N) : string :=
  JS.hundredthsToString (JS.roundDiv (bytes * 100) (1024 ^ i)).

(** ** The state of the page

    The global [selectedFiles], the properties of the DOM elements that the
    script assigns or reads, and the observable calls: the messages passed to
    [alert] and the bodies passed to [fetch], oldest first. *)

(** The [FormData] body of the POST request. *)
Record Request := {
  form_files : list File;
  form_target_count : string;
}.

Record State := {
  selectedFiles : list File;
  selectedFilesDiv_innerHTML : string;
  generateBtn_disabled : bool;
  targetCountInput_value : string;
  progressSection_display : string;
  progressFill_width : string;
  progressText_textContent : string;
  resultsSection_display : string;
  resultsContent_innerHTML : string;
  alerts : list string;
  requests : list Request;
}.

Definition set_selectedFiles (v : list File) (st : State) : State :=
  {| selectedFiles := v;
     selectedFilesDiv_innerHTML := selectedFilesDiv_innerHTML st;
     generateBtn_disabled := generateBtn_disabled st;
     targetCountInput_value := targetCountInput_value st;
     progressSection_display := progressSection_display st;
     progressFill_width := progressFill_width st;
     progressText_textContent := progressText_textContent st;
     resultsSection_display := resultsSection_display st;
     resultsContent_innerHTML := resultsContent_innerHTML st;
     alerts := alerts st;
     requests := requests st |}.

Definition set_selectedFilesDiv_innerHTML (v : string) (st : State) : State :=
  {| selectedFiles := selectedFiles st;
     selectedFilesDiv_innerHTML := v;
     generateBtn_disabled := generateBtn_disabled st;
     targetCountInput_value := targetCountInput_value st;
     progressSection_display := progressSection_display st;
     progressFill_width := progressFill_width st;
     progressText_textContent := progressText_textContent st;
     resultsSection_display := resultsSection_display st;
     resultsContent_innerHTML := resultsContent_innerHTML st;
     alerts := alerts st;
     requests := requests st |}.

Definition set_generateBtn_disabled (v : bool) (st : State) : State :=
  {| selectedFiles := selectedFiles st;
     selectedFilesDiv_innerHTML := selectedFilesDiv_innerHTML st;
     generateBtn_disabled := v;
     targetCountInput_value := targetCountInput_value st;
     progressSection_display := progressSection_display st;
     progressFill_width := progressFill_width st;
     progressText_textContent := progressText_textContent st;
     resultsSection_display := resultsSection_display st;
     resultsContent_innerHTML := resultsContent_innerHTML st;
     alerts := alerts st;
     requests := requests st |}.

Definition set_progressSection_display (v : string) (st : State) : State :=
  {| selectedFiles := selectedFiles st;
     selectedFilesDiv_innerHTML := selectedFilesDiv_innerHTML st;
     generateBtn_disabled := generateBtn_disabled st;
     targetCountInput_value := targetCountInput_value st;
     progressSection_display := v;
     progressFill_width := progressFill_width st;
     progressText_textContent := progressText_textContent st;
     resultsSection_display := resultsSection_display st;
     resultsContent_innerHTML := resultsContent_innerHTML st;
     alerts := alerts st;
     requests := requests st |}.

Definition set_progressFill_width (v : string) (st : State) : State :=
  {| selectedFiles := selectedFiles st;
     selectedFilesDiv_innerHTML := selectedFilesDiv_innerHTML st;
     generateBtn_disabled := generateBtn_disabled st;
     targetCountInput_value := targetCountInput_value st;
     progressSection_display := progressSection_display st;
     progressFill_width := v;
     progressText_textContent := progressText_textContent st;
     resultsSection_display := resultsSection_display st;
     resultsContent_innerHTML := resultsContent_innerHTML st;
     alerts := alerts st;
     requests := requests st |}.

Definition set_progressText_textContent (v : string) (st : State) : State :=
  {| selectedFiles := selectedFiles st;
     selectedFilesDiv_innerHTML := selectedFilesDiv_innerHTML st;
     generateBtn_disabled := generateBtn_disabled st;
     targetCountInput_value := targetCountInput_value st;
     progressSection_display := progressSection_display st;
     progressFill_width := progressFill_width st;
     progressText_textContent := v;
     resultsSection_display := resultsSection_display st;
     resultsContent_innerHTML := resultsContent_innerHTML st;
     alerts := alerts st;
     requests := requests st |}.

Definition set_resultsSection_display (v : string) (st : State) : State :=
  {| selectedFiles := selectedFiles st;
     selectedFilesDiv_innerHTML := selectedFilesDiv_innerHTML st;
     generateBtn_disabled := generateBtn_disabled st;
     targetCountInput_value := targetCountInput_value st;
     progressSection_display := progressSection_display st;
     progressFill_width := progressFill_width st;
     progressText_textContent := progressText_textContent st;
     resultsSection_display := v;
     resultsContent_innerHTML := resultsContent_innerHTML st;
     alerts := alerts st;
     requests := requests st |}.

Definition set_resultsContent_innerHTML (v : string) (st : State) : State :=
  {| selectedFiles := selectedFiles st;
     selectedFilesDiv_innerHTML := selectedFilesDiv_innerHTML st;
     generateBtn_disabled := generateBtn_disabled st;
     targetCountInput_value := targetCountInput_value st;
     progressSection_display := progressSection_display st;
     progressFill_width := progressFill_width st;
     progressText_textContent := progressText_textContent st;
     resultsSection_display := resultsSection_display st;
     resultsContent_innerHTML := v;
     alerts := alerts st;
     requests := requests st |}.

Definition set_alerts (v : list string) (st : State) : State :=
  {| selectedFiles := selectedFiles st;
     selectedFilesDiv_innerHTML := selectedFilesDiv_innerHTML st;
     generateBtn_disabled := generateBtn_disabled st;
     targetCountInput_value := targetCountInput_value st;
     progressSection_display := progressSection_display st;
     progressFill_width := progressFill_width st;
     progressText_textContent := progressText_textContent st;
     resultsSection_display := resultsSection_display st;
     resultsContent_innerHTML := resultsContent_innerHTML st;
     alerts := v;
     requests := requests st |}.

Definition set_requests (v : list Request) (st : State) : State :=
  {| selectedFiles := selectedFiles st;
     selectedFilesDiv_innerHTML := selectedFilesDiv_innerHTML st;
     generateBtn_disabled := generateBtn_disabled st;
     targetCountInput_value := targetCountInput_value st;
     progressSection_display := progressSection_display st;
     progressFill_width := progressFill_width st;
     progressText_textContent := progressText_textContent st;
     resultsSection_display := resultsSection_display st;
     resultsContent_innerHTML := resultsContent_innerHTML st;
     alerts := alerts st;
     requests := v |}.

(** A state monad over [State], so that the functions read as the script. *)
Definition M (A : Type) : Type := State -> A * State.

Definition ret {A : Type} (a : A) : M A := fun st => (a, st).

Definition bind {A B : Type} (m : M A) (k : A -> M B) : M B :=
  fun st => let (a, st') := m st in k a st'.

Definition gets {A : Type} (f : State -> A) : M A := fun st => (f st, st).

Definition modify (f : State -> State) : M unit := fun st => (tt, f st).

Definition exec {A : Type} (m : M A) (st : State) : State := snd (m st).

Definition eval {A : Type} (m : M A) (st : State) : A := fst (m st).

Declare Scope js_scope.
Delimit Scope js_scope with js.
Notation "x <- m ;; k" := (bind m (fun x => k))
  (at level 61, m at next level, right associativity) : js_scope.
Notation "m ;; k" := (bind m (fun _ => k))
  (at level 61, right associativity) : js_scope.
Local Open Scope js_scope.

(** [Array.prototype.forEach] with a callback that acts on the state. *)
Fixpoint forEach {A : Type} (l : list A) (f : A -> M unit) : M unit :=
  match l with
  | [] => ret tt
  | x :: l' => f x ;; forEach l' f
  end.

Definition alert (msg : string) : M unit :=
  modify (fun st => set_alerts (alerts st ++ [msg])%list st).

(** ** Selection manager *)

(** The callback of the [map] of [renderSelectedFiles]: the row of one file. *)
Definition fileRow (file : File) (index : N) : string :=
  JS.nl
    ++ "        <div class=" ++ JS.q "file-item" ++ ">" ++ JS.nl
    ++ "            <div class=" ++ JS.q "file-info" ++ ">" ++ JS.nl
    ++ "                <div class=" ++ JS.q "file-icon" ++ ">📄</div>" ++ JS.nl
    ++ "                <div class=" ++ JS.q "file-details" ++ ">" ++ JS.nl
    ++ "                    <div class=" ++ JS.q "file-name" ++ ">" ++ name file ++ "</div>" ++ JS.nl
    ++ "                    <div class=" ++ JS.q "file-size" ++ ">" ++ formatFileSize (size file) ++ "</div>" ++ JS.nl
    ++ "                </div>" ++ JS.nl
    ++ "            </div>" ++ JS.nl
    ++ "            <button class=" ++ JS.q "file-remove" ++ " onclick=" ++ JS.dq ++ "removeFile(" ++ JS.natToString index ++ ")" ++ JS.dq ++ ">×</button>" ++ JS.nl
    ++ "        </div>" ++ JS.nl
    ++ "    ".

Definition renderSelectedFiles : M unit :=
  files <- gets selectedFiles ;;
  if (List.length files =? 0)%nat then modify (set_selectedFilesDiv_innerHTML "")
  else
    let html := JS.join (JS.mapi fileRow files) in
    modify (set_selectedFilesDiv_innerHTML html).

Definition updateGenerateButton : M unit :=
  files <- gets selectedFiles ;;
  modify (set_generateBtn_disabled (List.length files =? 0)%nat).

(** The predicate of the first filter of [addFiles]. *)
Definition isPdf (file : File) : bool :=
  (type file =? "application/pdf")%string || JS.endsWith (name file) ".pdf".

(** The predicate of the second filter of [addFiles]. *)
Definition isOversized (file : File) : bool :=
  (16 * 1024 * 1024 <? size file)%N.

Definition notPdfWarning : string := "⚠️ Vui lòng chọn file PDF!".

Definition oversizedWarning (fileName : string) : string :=
  "⚠️ File quá lớn: " ++ fileName ++ JS.nl ++ "Kích thước tối đa: 16MB".

(** [selectedFiles.push(file)]. *)
Definition push (file : File) : M unit :=
  modify (fun st => set_selectedFiles (selectedFiles st ++ [file])%list st).

(** The callback of the [forEach] of [addFiles]. *)
Definition addIfNew (file : File) : M unit :=
  files <- gets selectedFiles ;;
  match find (fun f => (name f =? name file)%string) files with
  | Some _ => ret tt
  | None => push file
  end.

Definition addFiles (files : list File) : M unit :=
  let pdfFiles := filter isPdf files in
  if (List.length pdfFiles =? 0)%nat then alert notPdfWarning
  else
    let oversizedFiles := filter isOversized pdfFiles in
    (* [oversizedFiles.length > 0], with [first] for [oversizedFiles[0]] *)
    match oversizedFiles with
    | first :: _ => alert (oversizedWarning (name first))
    | [] =>
        forEach pdfFiles addIfNew ;;
        renderSelectedFiles ;;
        updateGenerateButton
    end.

Definition removeFile (index : Z) : M unit :=
  files <- gets selectedFiles ;;
  modify (set_selectedFiles (fst (JS.splice files index 1))) ;;
  renderSelectedFiles ;;
  updateGenerateButton.

(** ** Generation orchestrator *)

Definition updateProgress (percentage : N) (text : string) : M unit :=
  modify (set_progressFill_width (JS.natToString percentage ++ "%")) ;;
  modify (set_progressText_textContent text).

(** What a rejected promise carries: an error with its [message]. *)
Record Error := {
  message : string;
}.

(** How an awaited promise settles. *)
Inductive Settled (A : Type) : Type :=
| Fulfilled (value : A)
| Rejected (reason : Error).

Arguments Fulfilled {A} value.
Arguments Rejected {A} reason.

Section Generation.

(** The numbers of the response and their [ToString]. *)
Variable number : Type.
Variable numberToString : number -> string.

(** One item of [data.results]; the constructor is its [success] flag. *)
Inductive ResultItem : Type :=
| ItemSuccess (filename : string) (total_test_cases coverage_percentage : number)
    (worksheet_name sheet_url : string)
| ItemFailure (filename error : string).

Definition item_success (result : ResultItem) : bool :=
  match result with
  | ItemSuccess _ _ _ _ _ => true
  | ItemFailure _ _ => false
  end.

Record BatchResponse := {
  success : bool;
  successful_files : number;
  total_files : number;
  results : list ResultItem;
}.

(** The response of [fetch]: what matters of it is how [response.json()]
    settles. *)
Record Response := {
  json : Settled BatchResponse;
}.

(** The summary line that [displayResults] writes when [data.success]. *)
Definition renderSummary (data : BatchResponse) : string :=
  "<div class=" ++ JS.q "result-summary" ++ ">" ++ JS.nl
      ++ "            <p><strong>✅ Thành công:</strong> " ++ numberToString (successful_files data) ++ "/" ++ numberToString (total_files data) ++ " files</p>" ++ JS.nl
      ++ "        </div>".

(** The block that the [forEach] of [displayResults] appends for one item. *)
Definition renderResult (result : ResultItem) : string :=
  match result with
  | ItemSuccess filename total_test_cases coverage_percentage worksheet_name sheet_url =>
      JS.nl
          ++ "                <div class=" ++ JS.q "result-item" ++ ">" ++ JS.nl
          ++ "                    <div class=" ++ JS.q "result-filename" ++ ">📄 " ++ filename ++ "</div>" ++ JS.nl
          ++ "                    <div class=" ++ JS.q "result-stats" ++ ">" ++ JS.nl
          ++ "                        <div class=" ++ JS.q "stat-item" ++ ">" ++ JS.nl
          ++ "                            <span class=" ++ JS.q "stat-label" ++ ">Test Cases</span>" ++ JS.nl
          ++ "                            <span class=" ++ JS.q "stat-value" ++ ">" ++ numberToString total_test_cases ++ "</span>" ++ JS.nl
          ++ "                        </div>" ++ JS.nl
          ++ "                        <div class=" ++ JS.q "stat-item" ++ ">" ++ JS.nl
          ++ "                            <span class=" ++ JS.q "stat-label" ++ ">Coverage</span>" ++ JS.nl
          ++ "                            <span class=" ++ JS.q "stat-value" ++ ">" ++ numberToString coverage_percentage ++ "%</span>" ++ JS.nl
          ++ "                        </div>" ++ JS.nl
          ++ "                        <div class=" ++ JS.q "stat-item" ++ ">" ++ JS.nl
          ++ "                            <span class=" ++ JS.q "stat-label" ++ ">Worksheet</span>" ++ JS.nl
          ++ "                            <span class=" ++ JS.q "stat-value" ++ " style=" ++ JS.q "font-size: 0.9rem;" ++ ">" ++ JS.substring worksheet_name 0 20 ++ "...</span>" ++ JS.nl
          ++ "                        </div>" ++ JS.nl
          ++ "                    </div>" ++ JS.nl
          ++ "                    <a href=" ++ JS.q sheet_url ++ " target=" ++ JS.q "_blank" ++ " class=" ++ JS.q "result-link" ++ ">" ++ JS.nl
          ++ "                        🔗 Mở Google Sheet" ++ JS.nl
          ++ "                    </a>" ++ JS.nl
          ++ "                </div>" ++ JS.nl
          ++ "            "
  | ItemFailure filename error =>
      JS.nl
          ++ "                <div class=" ++ JS.q "result-item error" ++ ">" ++ JS.nl
          ++ "                    <div class=" ++ JS.q "result-filename" ++ ">📄 " ++ filename ++ "</div>" ++ JS.nl
          ++ "                    <div class=" ++ JS.q "error-message" ++ ">❌ " ++ error ++ "</div>" ++ JS.nl
          ++ "                </div>" ++ JS.nl
          ++ "            "
  end.

Definition displayResults (data : BatchResponse) : M unit :=
  modify (set_progressSection_display "none") ;;
  modify (set_resultsSection_display "block") ;;
  modify (set_generateBtn_disabled false) ;;
  let html := "" in
  let html := if success data then html ++ renderSummary data else html in
  let html := fold_left (fun html result => html ++ renderResult result) (results data) html in
  modify (set_resultsContent_innerHTML html) ;;
  if success data then
    modify (set_selectedFiles []) ;;
    renderSelectedFiles ;;
    updateGenerateButton
  else ret tt.

(** The [catch] clause of [generateTestCases]. *)
Definition onError (error : Error) : M unit :=
  modify (set_progressSection_display "none") ;;
  alert ("❌ Lỗi: " ++ message error) ;;
  modify (set_generateBtn_disabled false).

(** [fetch(url, {method: 'POST', body: formData})]: the call is recorded. *)
Definition fetch (formData : Request) : M unit :=
  modify (fun st => set_requests (requests st ++ [formData])%list st).

(** [generateTestCases] up to its first [await]: the guard, the panels, the
    form data and the call to [fetch].  The result tells whether a request
    was sent. *)
Definition generateTestCases_send : M bool :=
  files <- gets selectedFiles ;;
  if (List.length files =? 0)%nat then ret false
  else
    modify (set_resultsSection_display "none") ;;
    modify (set_progressSection_display "block") ;;
    modify (set_generateBtn_disabled true) ;;
    updateProgress 0 "Đang chuẩn bị..." ;;
    target_count <- gets targetCountInput_value ;;
    let formData := {| form_files := files; form_target_count := target_count |} in
    updateProgress 20 "Đang upload files..." ;;
    fetch formData ;;
    ret true.

(** [generateTestCases] from the moment the promise of [fetch] settles.  The
    result is the data for which [displayResults] is scheduled by
    [setTimeout], if any. *)
Definition generateTestCases_settle (network : Settled Response) : M (option BatchResponse) :=
  match network with
  | Rejected error => onError error ;; ret None
  | Fulfilled response =>
      updateProgress 40 "Đang extract text từ PDF..." ;;
      match json response with
      | Rejected error => onError error ;; ret None
      | Fulfilled data =>
          updateProgress 100 "Hoàn thành!" ;;
          ret (Some data)
      end
  end.

(** One whole call, [network] telling how the request goes. *)
Definition generateTestCases (network : Settled Response) : M (option BatchResponse) :=
  sent <- generateTestCases_send ;;
  if sent then generateTestCases_settle network else ret None.

(** A submission followed by the deferred [displayResults], when scheduled. *)
Definition submit (network : Settled Response) : M unit :=
  scheduled <- generateTestCases network ;;
  match scheduled with
  | Some data => displayResults data
  | None => ret tt
  end.

(** The handlers of the page as events, and a run of the page. *)
Inductive Event : Type :=
| AddFiles (files : list File)
| RemoveFile (index : Z)
| Submit (network : Settled Response).

Definition handle (e : Event) : M unit :=
  match e with
  | AddFiles files => addFiles files
  | RemoveFile index => removeFile index
  | Submit network => submit network
  end.

Definition run (events : list Event) : M unit := forEach events handle.

End Generation.

Arguments ItemSuccess {number}.
Arguments ItemFailure {number}.
Arguments item_success {number}.
Arguments success {number}.
Arguments successful_files {number}.
Arguments total_files {number}.
Arguments results {number}.
Arguments json {number}.
Arguments Build_BatchResponse {number}.
Arguments Build_Response {number}.
Arguments renderSummary {number}.
Arguments renderResult {number}.
Arguments displayResults {number}.
Arguments generateTestCases_settle {number}.
Arguments generateTestCases {number}.
Arguments submit {number}.
Arguments AddFiles {number}.
Arguments RemoveFile {number}.
Arguments Submit {number}.
Arguments handle {number}.
Arguments run {number}.


(** ** Definitions used to state the properties *)

(** The selection list after the callback of [addFiles] has seen [file]. *)
Definition appendNew (selected : list File) (file : File) : list File :=
  match find (fun f => (name f =? name file)%string) selected with
  | Some _ => selected
  | None => (selected ++ [file])%list
  end.

(** What [renderSelectedFiles] assigns to [selectedFilesDiv.innerHTML]. *)
Definition fileListHtml (files : list File) : string :=
  if (List.length files =? 0)%nat then "" else JS.join (JS.mapi fileRow files).

(** The state after [addFiles] has accepted a batch: [selected] is the new
    list, which is rendered, and the button follows. *)
Definition accepted (selected : list File) (st : State) : State :=
  set_generateBtn_disabled (List.length selected =? 0)%nat
    (set_selectedFilesDiv_innerHTML (fileListHtml selected) (set_selectedFiles selected st)).

(** No two entries of the selection list have the same [name]. *)
Definition uniqueNames (st : State) : Prop := NoDup (map name (selectedFiles st)).

(** [addFiles files] called on [st] passes a message to [alert]. *)
Definition warns (files : list File) (st : State) : Prop :=
  alerts (exec (addFiles files) st) <> alerts st.

(** The error block of [displayResults] holds this element. *)
Definition errorMessageDiv (error : string) : string :=
  "<div class=" ++ JS.q "error-message" ++ ">❌ " ++ error ++ "</div>".

(** The success block of [displayResults] holds this element. *)
Definition worksheetSpan (shown : string) : string :=
  "<span class=" ++ JS.q "stat-value" ++ " style=" ++ JS.q "font-size: 0.9rem;" ++ ">"
    ++ shown ++ "</span>".

(** What [displayResults] assigns to [resultsContent.innerHTML]. *)
Definition resultsHtml {number : Type} (numberToString : number -> string)
    (data : BatchResponse number) : string :=
  (if success data then renderSummary numberToString data else "")
    ++ JS.join (map (renderResult numberToString) (results data)).

(** The panels and the button as [displayResults] sets them first. *)
Definition resultsShown (html : string) (st : State) : State :=
  set_resultsContent_innerHTML html
    (set_generateBtn_disabled false
       (set_resultsSection_display "block" (set_progressSection_display "none" st))).

(** The state in which [generateTestCases] awaits the promise of [fetch]. *)
Definition awaiting (st : State) : State :=
  set_requests
    (requests st
       ++ [{| form_files := selectedFiles st;
              form_target_count := targetCountInput_value st |}])%list
    (set_progressText_textContent "Đang upload files..."
       (set_progressFill_width "20%"
          (set_generateBtn_disabled true
             (set_progressSection_display "block"
                (set_resultsSection_display "none" st))))).

(** The message that the [catch] clause of [generateTestCases] alerts. *)
Definition errorAlert (error : Error) : string := "❌ Lỗi: " ++ message error.

(** The network request throws [error]: the promise of [fetch] is rejected,
    or the body of the response is not JSON and [response.json()] is. *)
Definition requestThrows {number : Type} (network : Settled (Response number))
    (error : Error) : Prop :=
  network = Rejected error
  \/ exists response, network = Fulfilled response /\ json response = Rejected error.

(** [part] occurs in [whole]. *)
Definition occursIn (part whole : string) : Prop :=
  exists before after, whole = before ++ part ++ after.

(** ** Sample data *)

Module Sample.

(** The page as it is loaded: nothing selected, the button disabled. *)
Definition page : State :=
  {| selectedFiles := [];
     selectedFilesDiv_innerHTML := "";
     generateBtn_disabled := true;
     targetCountInput_value := "10";
     progressSection_display := "none";
     progressFill_width := "0%";
     progressText_textContent := "";
     resultsSection_display := "none";
     resultsContent_innerHTML := "";
     alerts := [];
     requests := [] |}.

Definition a_pdf : File := {| name := "a.pdf"; size := 1500; type := "application/pdf" |}.
Definition b_pdf : File := {| name := "b.pdf"; size := 16 * 1024 * 1024; type := "" |}.
Definition notes_txt : File := {| name := "notes.txt"; size := 2; type := "text/plain" |}.
Definition big_pdf : File :=
  {| name := "big.pdf"; size := 16 * 1024 * 1024 + 1; type := "application/pdf" |}.

(** A text file, a PDF within the limit and a PDF over it. *)
Definition mixedBatch : list File := [notes_txt; a_pdf; big_pdf].

(** The page with [a.pdf] and [b.pdf] selected. *)
Definition twoSelected : State := exec (addFiles [a_pdf; b_pdf]) page.

Definition okResponse : BatchResponse N :=
  {| success := true;
     successful_files := 1%N;
     total_files := 1%N;
     results := [ItemSuccess "a.pdf" 12%N 85%N "Sheet For A Very Long Name Indeed" "https://x"] |}.

Definition failedResponse : BatchResponse N :=
  {| success := false;
     successful_files := 0%N;
     total_files := 1%N;
     results := [ItemFailure "b.pdf" "parse failed"] |}.

Definition offline : Settled (Response N) := Rejected {| message := "Failed to fetch" |}.

End Sample.

(** ** The rest of the page

    The handlers that [setupEventListeners] registers, [loadConfig], and the
    page around the controller: the indicator of the upload area, the native
    file picker and the two display fields of the configuration. *)

(** [targetCountInput.value], which the user edits. *)
Definition set_targetCountInput_value (v : string) (st : State) : State :=
  {| selectedFiles := selectedFiles st;
     selectedFilesDiv_innerHTML := selectedFilesDiv_innerHTML st;
     generateBtn_disabled := generateBtn_disabled st;
     targetCountInput_value := v;
     progressSection_display := progressSection_display st;
     progressFill_width := progressFill_width st;
     progressText_textContent := progressText_textContent st;
     resultsSection_display := resultsSection_display st;
     resultsContent_innerHTML := resultsContent_innerHTML st;
     alerts := alerts st;
     requests := requests st |}.

Record Page := {
  app : State;
  (** [uploadArea.classList] holds 'drag-over'. *)
  uploadArea_dragOver : bool;
  (** The calls of [fileInput.click()], which opens the file picker. *)
  fileInput_clicks : nat;
  modelInfo_textContent : string;
  coverageInfo_textContent : string;
}.

Definition set_app (v : State) (p : Page) : Page :=
  {| app := v;
     uploadArea_dragOver := uploadArea_dragOver p;
     fileInput_clicks := fileInput_clicks p;
     modelInfo_textContent := modelInfo_textContent p;
     coverageInfo_textContent := coverageInfo_textContent p |}.

Definition set_uploadArea_dragOver (v : bool) (p : Page) : Page :=
  {| app := app p;
     uploadArea_dragOver := v;
     fileInput_clicks := fileInput_clicks p;
     modelInfo_textContent := modelInfo_textContent p;
     coverageInfo_textContent := coverageInfo_textContent p |}.

Definition set_fileInput_clicks (v : nat) (p : Page) : Page :=
  {| app := app p;
     uploadArea_dragOver := uploadArea_dragOver p;
     fileInput_clicks := v;
     modelInfo_textContent := modelInfo_textContent p;
     coverageInfo_textContent := coverageInfo_textContent p |}.

Definition set_modelInfo_textContent (v : string) (p : Page) : Page :=
  {| app := app p;
     uploadArea_dragOver := uploadArea_dragOver p;
     fileInput_clicks := fileInput_clicks p;
     modelInfo_textContent := v;
     coverageInfo_textContent := coverageInfo_textContent p |}.

Definition set_coverageInfo_textContent (v : string) (p : Page) : Page :=
  {| app := app p;
     uploadArea_dragOver := uploadArea_dragOver p;
     fileInput_clicks := fileInput_clicks p;
     modelInfo_textContent := modelInfo_textContent p;
     coverageInfo_textContent := v |}.

(** A function of the controller, called from the page. *)
Definition onApp {A : Type} (m : M A) (p : Page) : Page := set_app (exec m (app p)) p.

(** What the handlers use of an event: the files it carries
    ([e.target.files], [e.dataTransfer.files]) and its two flags. *)
Record DomEvent := {
  event_files : list File;
  defaultPrevented : bool;
  propagationStopped : bool;
}.

Definition preventDefault (e : DomEvent) : DomEvent :=
  {| event_files := event_files e;
     defaultPrevented := true;
     propagationStopped := propagationStopped e |}.

Definition stopPropagation (e : DomEvent) : DomEvent :=
  {| event_files := event_files e;
     defaultPrevented := defaultPrevented e;
     propagationStopped := true |}.

(** A listener: the event and the page after it has run. *)
Definition Listener : Type := DomEvent -> Page -> DomEvent * Page.

Definition preventDefaults : Listener :=
  fun e p => (stopPropagation (preventDefault e), p).

Definition handleFileSelect : Listener :=
  fun e p =>
    let files := event_files e in
    (e, onApp (addFiles files) p).

Definition handleDragOver : Listener :=
  fun e p => (preventDefault e, set_uploadArea_dragOver true p).

Definition handleDragLeave : Listener :=
  fun e p => (preventDefault e, set_uploadArea_dragOver false p).

Definition handleDrop : Listener :=
  fun e p =>
    let e := preventDefault e in
    let p := set_uploadArea_dragOver false p in
    let files := event_files e in
    (e, onApp (addFiles files) p).

(** The listener of the click on the upload area. *)
Definition openFilePicker : Listener :=
  fun e p => (e, set_fileInput_clicks (S (fileInput_clicks p)) p).

(** The four drag events for which [setupEventListeners] registers. *)
Inductive DragKind : Type := DragEnter | DragOver | DragLeave | Drop.

(** The listeners that [setupEventListeners] adds to [uploadArea] for the
    drag events. *)
Definition uploadAreaListener (kind : DragKind) : option Listener :=
  match kind with
  | DragEnter => None
  | DragOver => Some handleDragOver
  | DragLeave => Some handleDragLeave
  | Drop => Some handleDrop
  end.

(** Where a drag event is targeted: at the upload area or inside it, at
    [document.body] or elsewhere inside it, or outside the body (at the
    [html] element or the document). *)
Inductive DragTarget : Type := OnUploadArea | ElsewhereInBody | OutsideBody.

(** A drag event is dispatched: on the upload area, which is in the body, its
    listener runs first; then the event bubbles to [document.body], unless
    its propagation was stopped, where [preventDefaults] is registered for
    the four kinds.  An event targeted outside the body meets no listener. *)
Definition dispatchDrag (target : DragTarget) (kind : DragKind) : Listener :=
  fun e p =>
    match target with
    | OutsideBody => (e, p)
    | _ =>
        let (e', p') :=
          match target, uploadAreaListener kind with
          | OnUploadArea, Some listener => listener e p
          | _, _ => (e, p)
          end in
        if propagationStopped e' then (e', p') else preventDefaults e' p'
    end.

(** An event as the browser creates it, carrying [files]. *)
Definition freshEvent (files : list File) : DomEvent :=
  {| event_files := files; defaultPrevented := false; propagationStopped := false |}.

(** The body of [GET /api/config]. *)
Module ConfigApi.

Record Config (number : Type) := {
  model : string;
  coverage_target : number;
}.

Record Data (number : Type) := {
  success : bool;
  config : Config number;
}.

(** The response of [fetch]: how [response.json()] settles. *)
Record Response (number : Type) := {
  json : Settled (Data number);
}.

Arguments model {number}.
Arguments coverage_target {number}.
Arguments success {number}.
Arguments config {number}.
Arguments json {number}.
Arguments Build_Config {number}.
Arguments Build_Data {number}.
Arguments Build_Response {number}.

End ConfigApi.

(** [loadConfig], [network] telling how the request goes.  The [catch]
    clause only logs to the console. *)
Definition loadConfig {number : Type} (numberToString : number -> string)
    (network : Settled (ConfigApi.Response number)) (p : Page) : Page :=
  match network with
  | Rejected error => p
  | Fulfilled response =>
      match ConfigApi.json response with
      | Rejected error => p
      | Fulfilled data =>
          if ConfigApi.success data then
            let p := set_modelInfo_textContent (ConfigApi.model (ConfigApi.config data)) p in
            set_coverageInfo_textContent
              (numberToString (ConfigApi.coverage_target (ConfigApi.config data)) ++ "%") p
          else p
      end
  end.

(** What can happen on the page, one step of the event loop each.  A drag
    event anywhere in the document, a change of the file input, a click on
    the upload area, on the remove button of a row or on the submit button,
    an edit of the target count; the promise of a request settling, the timer
    of [displayResults] firing, the configuration request settling.  The
    last three may come at any time and with any data. *)
Inductive PageEvent (number : Type) : Type :=
| DragEvent (target : DragTarget) (kind : DragKind) (files : list File)
| ChangeFileInput (files : list File)
| ClickUploadArea
| ClickRemove (index : Z)
| ClickGenerate
| EditTargetCount (value : string)
| RequestSettles (network : Settled (Response number))
| ResultsTimer (data : BatchResponse number)
| ConfigSettles (network : Settled (ConfigApi.Response number)).

Arguments DragEvent {number}.
Arguments ChangeFileInput {number}.
Arguments ClickUploadArea {number}.
Arguments ClickRemove {number}.
Arguments ClickGenerate {number}.
Arguments EditTargetCount {number}.
Arguments RequestSettles {number}.
Arguments ResultsTimer {number}.
Arguments ConfigSettles {number}.

(** A disabled button dispatches no click. *)
Definition pageHandle {number : Type} (numberToString : number -> string)
    (event : PageEvent number) (p : Page) : Page :=
  match event with
  | DragEvent target kind files =>
      snd (dispatchDrag target kind (freshEvent files) p)
  | ChangeFileInput files => snd (handleFileSelect (freshEvent files) p)
  | ClickUploadArea => snd (openFilePicker (freshEvent []) p)
  | ClickRemove index => onApp (removeFile index) p
  | ClickGenerate =>
      if generateBtn_disabled (app p) then p else onApp generateTestCases_send p
  | EditTargetCount value => set_app (set_targetCountInput_value value (app p)) p
  | RequestSettles network => onApp (generateTestCases_settle network) p
  | ResultsTimer data => onApp (displayResults numberToString data) p
  | ConfigSettles network => loadConfig numberToString network p
  end.

Definition pageRun {number : Type} (numberToString : number -> string)
    (events : list (PageEvent number)) (p : Page) : Page :=
  fold_left (fun p event => pageHandle numberToString event p) events p.

(** ** Definitions used to state the further properties *)

(** A file that passes both filters of [addFiles]. *)
Definition acceptable (file : File) : Prop :=
  isPdf file = true /\ (size file <= 16 * 1024 * 1024)%N.

(** Every entry of the selection list passes both filters. *)
Definition allAcceptable (st : State) : Prop := Forall acceptable (selectedFiles st).

(** A request as the server may rely on it: it carries at least one file, no
    two of its files have the same name, and each passes both filters. *)
Definition requestValid (request : Request) : Prop :=
  form_files request <> []
  /\ NoDup (map name (form_files request))
  /\ Forall acceptable (form_files request).

(** The rendered list and the button agree with the selection list. *)
Definition consistent (st : State) : Prop :=
  selectedFilesDiv_innerHTML st = fileListHtml (selectedFiles st)
  /\ generateBtn_disabled st = (List.length (selectedFiles st) =? 0)%nat.

(** The first entry of [files] whose name is [n]. *)
Definition findByName (n : string) (files : list File) : option File :=
  find (fun f => (name f =? n)%string) files.


(** The elements of the block of a success item. *)
Definition statValueSpan (shown : string) : string :=
  "<span class=" ++ JS.q "stat-value" ++ ">" ++ shown ++ "</span>".

Definition sheetAnchorOpen (sheet_url : string) : string :=
  "<a href=" ++ JS.q sheet_url ++ " target=" ++ JS.q "_blank" ++ " class="
    ++ JS.q "result-link" ++ ">".

Definition filenameDiv (filename : string) : string :=
  "<div class=" ++ JS.q "result-filename" ++ ">📄 " ++ filename ++ "</div>".

(** The page of the samples: the controller as loaded, no indicator. *)
Definition samplePage : Page :=
  {| app := Sample.page;
     uploadArea_dragOver := false;
     fileInput_clicks := 0;
     modelInfo_textContent := "-";
     coverageInfo_textContent := "-" |}.

(** The state after the [catch] clause of [generateTestCases]. *)
Definition failed (error : Error) (st : State) : State :=
  set_generateBtn_disabled false
    (set_alerts (alerts st ++ [errorAlert error])%list
       (set_progressSection_display "none" st)).

(** What every state of a run satisfies: names are unique in the selection
    list, every entry passes both filters, every request sent is valid. *)
Definition wellFormed (st : State) : Prop :=
  uniqueNames st /\ allAcceptable st /\ Forall requestValid (requests st).

(** The configuration request succeeds with [data]: the promise of [fetch]
    is fulfilled, the body parses and its [success] flag is true. *)
Definition configLoaded {number : Type} (network : Settled (ConfigApi.Response number))
    (data : ConfigApi.Data number) : Prop :=
  exists response,
    network = Fulfilled response
    /\ ConfigApi.json response = Fulfilled data
    /\ ConfigApi.success data = true.

(** The text of the summary line of [displayResults]. *)
Definition summaryText (successful total : string) : string :=
  "<strong>✅ Thành công:</strong> " ++ successful ++ "/" ++ total ++ " files".

(** A configuration as the server sends it. *)
Definition sampleConfig : ConfigApi.Data N :=
  {| ConfigApi.success := true;
     ConfigApi.config := {| ConfigApi.model := "gpt"; ConfigApi.coverage_target := 90%N |} |}.

(** * Properties *)

(** ** The state monad *)

Lemma exec_bind {A B : Type} (m : M A) (k : A -> M B) (st : State) :
  exec (bind m k) st = exec (k (eval m st)) (exec m st).
Proof.
  unfold exec, eval, bind. destruct (m st) as [a st']. reflexivity.
Qed.

Lemma eval_bind {A B : Type} (m : M A) (k : A -> M B) (st : State) :
  eval (bind m k) st = eval (k (eval m st)) (exec m st).
Proof.
  unfold exec, eval, bind. destruct (m st) as [a st']. reflexivity.
Qed.

Lemma set_selectedFiles_same (st : State) : set_selectedFiles (selectedFiles st) st = st.
Proof. destruct st; reflexivity. Qed.

Lemma renderSelectedFiles_exec (st : State) :
  exec renderSelectedFiles st
  = set_selectedFilesDiv_innerHTML (fileListHtml (selectedFiles st)) st.
Proof.
  unfold renderSelectedFiles, fileListHtml. rewrite exec_bind.
  change (eval (gets selectedFiles) st) with (selectedFiles st).
  change (exec (gets selectedFiles) st) with st.
  destruct (List.length (selectedFiles st) =? 0)%nat; reflexivity.
Qed.

Lemma updateGenerateButton_exec (st : State) :
  exec updateGenerateButton st
  = set_generateBtn_disabled (List.length (selectedFiles st) =? 0)%nat st.
Proof. reflexivity. Qed.

(** Re-rendering and recomputing the button leave the list and the alerts. *)
Lemma refresh_exec (st : State) :
  exec (renderSelectedFiles ;; updateGenerateButton) st
  = set_generateBtn_disabled (List.length (selectedFiles st) =? 0)%nat
      (set_selectedFilesDiv_innerHTML (fileListHtml (selectedFiles st)) st).
Proof.
  rewrite exec_bind, updateGenerateButton_exec, renderSelectedFiles_exec. reflexivity.
Qed.

(** ** The [forEach] of [addFiles] *)

Lemma addIfNew_exec (file : File) (st : State) :
  exec (addIfNew file) st = set_selectedFiles (appendNew (selectedFiles st) file) st.
Proof.
  unfold addIfNew, appendNew. rewrite exec_bind.
  change (eval (gets selectedFiles) st) with (selectedFiles st).
  change (exec (gets selectedFiles) st) with st.
  destruct (find _ (selectedFiles st)).
  - symmetry. apply set_selectedFiles_same.
  - reflexivity.
Qed.

Lemma forEach_addIfNew_exec (files : list File) (st : State) :
  exec (forEach files addIfNew) st
  = set_selectedFiles (fold_left appendNew files (selectedFiles st)) st.
Proof.
  revert st. induction files as [|file files IH]; intro st; simpl.
  - symmetry. apply set_selectedFiles_same.
  - rewrite exec_bind, IH, addIfNew_exec. reflexivity.
Qed.

Lemma find_name_None (n : string) (l : list File) :
  find (fun f => (name f =? n)%string) l = None <-> ~ In n (map name l).
Proof.
  induction l as [|f l IH]; simpl.
  - tauto.
  - destruct (String.eqb_spec (name f) n) as [E|E].
    + split; [discriminate | intro H; exfalso; apply H; now left].
    + rewrite IH. tauto.
Qed.

Lemma find_name_Some (n : string) (l : list File) :
  In n (map name l) -> exists f, find (fun f => (name f =? n)%string) l = Some f.
Proof.
  intro H. destruct (find (fun f => (name f =? n)%string) l) as [f|] eqn:E.
  - now exists f.
  - apply find_name_None in E. contradiction.
Qed.

Lemma appendNew_present (selected : list File) (file : File) :
  In (name file) (map name selected) -> appendNew selected file = selected.
Proof.
  intro H. unfold appendNew. destruct (find_name_Some _ _ H) as [f ->]. reflexivity.
Qed.

Lemma appendNew_absent (selected : list File) (file : File) :
  ~ In (name file) (map name selected) -> appendNew selected file = (selected ++ [file])%list.
Proof.
  intro H. unfold appendNew. apply find_name_None in H. now rewrite H.
Qed.

Lemma NoDup_snoc {A : Type} (l : list A) (a : A) :
  NoDup l -> ~ In a l -> NoDup (l ++ [a]).
Proof.
  induction l as [|x l IH]; simpl; intros Hl Ha.
  - constructor; [tauto | constructor].
  - inversion_clear Hl as [|? ? Hx Hl']. constructor.
    + rewrite in_app_iff. simpl. intros [H|[H|[]]]; [tauto | subst; tauto].
    + apply IH; tauto.
Qed.

Lemma appendNew_unique (selected : list File) (file : File) :
  NoDup (map name selected) -> NoDup (map name (appendNew selected file)).
Proof.
  intro H. unfold appendNew.
  destruct (find _ selected) eqn:E; [exact H|].
  apply find_name_None in E. rewrite map_app. simpl. now apply NoDup_snoc.
Qed.

Lemma appendNew_listed (selected : list File) (file : File) :
  In (name file) (map name (appendNew selected file)).
Proof.
  destruct (in_dec string_dec (name file) (map name selected)) as [H|H].
  - now rewrite appendNew_present.
  - rewrite appendNew_absent by exact H. rewrite map_app, in_app_iff. simpl. tauto.
Qed.

Lemma appendNew_extends (selected : list File) (file : File) :
  exists added, appendNew selected file = (selected ++ added)%list /\ incl added [file].
Proof.
  unfold appendNew. destruct (find _ selected).
  - exists []. rewrite app_nil_r. split; [reflexivity | intros x []].
  - exists [file]. split; [reflexivity | apply incl_refl].
Qed.

Lemma fold_appendNew_unique (files selected : list File) :
  NoDup (map name selected) -> NoDup (map name (fold_left appendNew files selected)).
Proof.
  revert selected. induction files as [|file files IH]; simpl; intros selected H.
  - exact H.
  - apply IH. now apply appendNew_unique.
Qed.

Lemma fold_appendNew_extends (files selected : list File) :
  exists added,
    fold_left appendNew files selected = (selected ++ added)%list /\ incl added files.
Proof.
  revert selected. induction files as [|file files IH]; simpl; intro selected.
  - exists []. rewrite app_nil_r. split; [reflexivity | intros x []].
  - destruct (appendNew_extends selected file) as (a1 & E1 & I1).
    destruct (IH (appendNew selected file)) as (a2 & E2 & I2).
    exists (a1 ++ a2)%list. split.
    + rewrite E2, E1, app_assoc. reflexivity.
    + intros x Hx. apply in_app_or in Hx. destruct Hx as [Hx|Hx].
      * apply I1 in Hx. destruct Hx as [<-|[]]. now left.
      * right. now apply I2.
Qed.

Lemma fold_appendNew_keeps (files selected : list File) (n : string) :
  In n (map name selected) -> In n (map name (fold_left appendNew files selected)).
Proof.
  intro H. destruct (fold_appendNew_extends files selected) as (added & -> & _).
  rewrite map_app, in_app_iff. now left.
Qed.

Lemma fold_appendNew_listed (files selected : list File) (file : File) :
  In file files -> In (name file) (map name (fold_left appendNew files selected)).
Proof.
  revert selected. induction files as [|x files IH]; simpl; intros selected H.
  - contradiction.
  - destruct H as [->|H].
    + apply fold_appendNew_keeps, appendNew_listed.
    + now apply IH.
Qed.

Lemma fold_appendNew_present (files selected : list File) :
  (forall file, In file files -> In (name file) (map name selected)) ->
  fold_left appendNew files selected = selected.
Proof.
  induction files as [|file files IH]; simpl; intro H.
  - reflexivity.
  - rewrite appendNew_present by (apply H; now left).
    apply IH. intros f Hf. apply H. now right.
Qed.

Lemma forEach_invariant {A : Type} (P : State -> Prop) (f : A -> M unit) (l : list A) :
  (forall x st, P st -> P (exec (f x) st)) ->
  forall st, P st -> P (exec (forEach l f) st).
Proof.
  intro Hf. induction l as [|x l IH]; intros st H; simpl.
  - exact H.
  - rewrite exec_bind. apply IH, Hf, H.
Qed.

(** ** The three outcomes of [addFiles] *)

Lemma accepted_selectedFiles (selected : list File) (st : State) :
  selectedFiles (accepted selected st) = selected.
Proof. reflexivity. Qed.

Lemma accepted_alerts (selected : list File) (st : State) :
  alerts (accepted selected st) = alerts st.
Proof. reflexivity. Qed.

Lemma addFiles_no_pdf (files : list File) (st : State) :
  filter isPdf files = [] ->
  exec (addFiles files) st = set_alerts (alerts st ++ [notPdfWarning]) st.
Proof.
  intro H. unfold addFiles. rewrite H. reflexivity.
Qed.

Lemma addFiles_oversized (files : list File) (st : State) (first : File) (rest : list File) :
  filter isOversized (filter isPdf files) = first :: rest ->
  exec (addFiles files) st = set_alerts (alerts st ++ [oversizedWarning (name first)]) st.
Proof.
  intro H. unfold addFiles.
  destruct (filter isPdf files) as [|p ps] eqn:E; [discriminate H|].
  change (List.length (p :: ps) =? 0)%nat with false. cbv iota.
  rewrite H. reflexivity.
Qed.

Lemma addFiles_accepted (files : list File) (st : State) :
  filter isPdf files <> [] ->
  filter isOversized (filter isPdf files) = [] ->
  exec (addFiles files) st
  = accepted (fold_left appendNew (filter isPdf files) (selectedFiles st)) st.
Proof.
  intros Hne H. unfold addFiles.
  destruct (filter isPdf files) as [|p ps] eqn:E; [contradiction|].
  change (List.length (p :: ps) =? 0)%nat with false. cbv iota.
  rewrite H, exec_bind, refresh_exec, forEach_addIfNew_exec. reflexivity.
Qed.

Lemma addFiles_cases (files : list File) (st : State) :
  (filter isPdf files = []
   /\ exec (addFiles files) st = set_alerts (alerts st ++ [notPdfWarning]) st)
  \/ (exists first rest,
        filter isOversized (filter isPdf files) = first :: rest
        /\ exec (addFiles files) st
           = set_alerts (alerts st ++ [oversizedWarning (name first)]) st)
  \/ (filter isPdf files <> []
      /\ filter isOversized (filter isPdf files) = []
      /\ exec (addFiles files) st
         = accepted (fold_left appendNew (filter isPdf files) (selectedFiles st)) st).
Proof.
  destruct (filter isPdf files) as [|p ps] eqn:E.
  - left. split; [reflexivity | now apply addFiles_no_pdf].
  - right. destruct (filter isOversized (p :: ps)) as [|first rest] eqn:O.
    + right. split; [discriminate|]. split; [reflexivity|].
      rewrite <- E. apply addFiles_accepted; rewrite E; [discriminate | exact O].
    + left. exists first, rest. split; [reflexivity|].
      apply addFiles_oversized with (rest := rest). now rewrite E.
Qed.

Lemma addFiles_unique (files : list File) (st : State) :
  uniqueNames st -> uniqueNames (exec (addFiles files) st).
Proof.
  unfold uniqueNames. intro H.
  destruct (addFiles_cases files st) as [[_ E]|[(first & rest & _ & E)|(_ & _ & E)]];
    rewrite E; simpl; auto using fold_appendNew_unique.
Qed.

(** ** [splice] and [removeFile] *)

Lemma splice_beyond {A : Type} (arr : list A) (start : Z) :
  (Z.of_nat (List.length arr) <= start)%Z -> fst (JS.splice arr start 1) = arr.
Proof.
  intro H. unfold JS.splice. cbn [fst].
  assert (Hs : (start <? 0)%Z = false) by (apply Z.ltb_ge; lia). rewrite Hs.
  rewrite Z.min_r by lia. rewrite Z.sub_diag.
  replace (Z.min (Z.max 1 0) 0) with 0%Z by lia.
  rewrite Z.add_0_r, Nat2Z.id, firstn_all, skipn_all. apply app_nil_r.
Qed.

Lemma splice_negative {A : Type} (arr : list A) (start : Z) :
  (start < 0)%Z ->
  let at_ := Z.to_nat (Z.max (Z.of_nat (List.length arr) + start) 0) in
  fst (JS.splice arr start 1) = (firstn at_ arr ++ skipn (S at_) arr)%list.
Proof.
  intros H at_. unfold JS.splice. cbn [fst].
  assert (Hs : (start <? 0)%Z = true) by (apply Z.ltb_lt; lia). rewrite Hs.
  fold at_. destruct arr as [|a arr].
  - now rewrite !skipn_nil, !firstn_nil.
  - set (len := Z.of_nat (List.length (a :: arr))) in *.
    assert (Hlen : (0 < len)%Z) by (subst len; simpl List.length; lia).
    replace (Z.min (Z.max 1 0) (len - Z.max (len + start) 0)) with 1%Z by lia.
    replace (Z.to_nat (Z.max (len + start) 0 + 1)) with (S at_) by (subst at_; lia).
    reflexivity.
Qed.

Lemma removeFile_exec (index : Z) (st : State) :
  exec (removeFile index) st
  = accepted (fst (JS.splice (selectedFiles st) index 1)) st.
Proof.
  unfold removeFile. rewrite exec_bind.
  change (eval (gets selectedFiles) st) with (selectedFiles st).
  change (exec (gets selectedFiles) st) with st.
  rewrite exec_bind, refresh_exec. reflexivity.
Qed.

Lemma length_remove_at {A : Type} (arr : list A) (i : nat) :
  i < List.length arr ->
  S (List.length (firstn i arr ++ skipn (S i) arr)) = List.length arr.
Proof.
  intro H. rewrite length_app, firstn_length_le, length_skipn by lia. lia.
Qed.

Lemma In_remove_at {A : Type} (arr : list A) (i : nat) (x : A) :
  In x (firstn i arr ++ skipn (S i) arr) -> In x arr.
Proof.
  revert i. induction arr as [|a arr IH]; intros i H.
  - rewrite firstn_nil, skipn_nil in H. exact H.
  - destruct i as [|i]; simpl in H.
    + now right.
    + destruct H as [H|H]; [now left | right; eapply IH; exact H].
Qed.

Lemma NoDup_remove_at {A : Type} (arr : list A) (i : nat) :
  NoDup arr -> NoDup (firstn i arr ++ skipn (S i) arr).
Proof.
  revert i. induction arr as [|a arr IH]; intros i H.
  - rewrite firstn_nil, skipn_nil. constructor.
  - inversion_clear H as [|? ? Ha Harr]. destruct i as [|i]; simpl.
    + exact Harr.
    + constructor.
      * intro Hin. apply Ha. eapply In_remove_at; exact Hin.
      * now apply IH.
Qed.

(** ** Strings *)

Lemma append_assoc (a b c : string) : (a ++ b) ++ c = a ++ b ++ c.
Proof.
  induction a as [|x a IH]; simpl; [reflexivity | now rewrite IH].
Qed.

Lemma append_nil_r (a : string) : a ++ "" = a.
Proof.
  induction a as [|x a IH]; simpl; [reflexivity | now rewrite IH].
Qed.

Lemma length_append (a b : string) :
  String.length (a ++ b) = String.length a + String.length b.
Proof.
  induction a as [|x a IH]; simpl; [reflexivity | now rewrite IH].
Qed.

Lemma substring_0_0 (s : string) : String.substring 0 0 s = "".
Proof. destruct s; reflexivity. Qed.

Lemma substring_0_all (s : string) (n : nat) :
  String.length s <= n -> String.substring 0 n s = s.
Proof.
  revert n. induction s as [|c s IH]; intros [|n] H; simpl in *;
    try reflexivity; try lia.
  f_equal. apply IH. lia.
Qed.

Lemma substring_0_length (s : string) (n : nat) :
  String.length (String.substring 0 n s) = Nat.min n (String.length s).
Proof.
  revert n. induction s as [|c s IH]; intros [|n]; simpl; try reflexivity.
  now rewrite IH.
Qed.

Lemma substring_skip_append (p s : string) (m : nat) :
  String.substring (String.length p) m (p ++ s) = String.substring 0 m s.
Proof.
  induction p as [|c p IH]; simpl; [reflexivity | exact IH].
Qed.

Lemma substring_split (s : string) (k : nat) :
  k <= String.length s ->
  s = String.substring 0 k s ++ String.substring k (String.length s - k) s.
Proof.
  revert k. induction s as [|c s IH]; intros [|k] H; simpl in *; try lia.
  - reflexivity.
  - now rewrite substring_0_all.
  - f_equal. apply IH. lia.
Qed.

(** [endsWith] holds exactly of the strings that end in the searched one. *)
Lemma endsWith_iff (s searchString : string) :
  JS.endsWith s searchString = true <-> exists stem, s = stem ++ searchString.
Proof.
  unfold JS.endsWith. split.
  - destruct (Z.ltb_spec (Z.of_nat (String.length s) - Z.of_nat (String.length searchString)) 0)
      as [H|H]; [discriminate|].
    intro E. apply String.eqb_eq in E.
    set (k := String.length s - String.length searchString).
    assert (Hk : Z.to_nat (Z.of_nat (String.length s) - Z.of_nat (String.length searchString)) = k)
      by (subst k; lia).
    assert (Hl : String.length searchString = String.length s - k) by (subst k; lia).
    rewrite Hk, Hl in E. exists (String.substring 0 k s).
    rewrite <- E. apply substring_split. subst k. lia.
  - intros [stem ->]. rewrite length_append.
    destruct (Z.ltb_spec (Z.of_nat (String.length stem + String.length searchString)
                          - Z.of_nat (String.length searchString)) 0) as [H|H]; [lia|].
    replace (Z.to_nat (Z.of_nat (String.length stem + String.length searchString)
                       - Z.of_nat (String.length searchString)))
      with (String.length stem) by lia.
    rewrite substring_skip_append, substring_0_all by lia. apply String.eqb_refl.
Qed.

Lemma isPdf_iff (file : File) :
  isPdf file = true
  <-> type file = "application/pdf" \/ exists stem, name file = stem ++ ".pdf".
Proof.
  unfold isPdf. rewrite orb_true_iff, String.eqb_eq, endsWith_iff. reflexivity.
Qed.

(** ** Code units

    Every sequence of 16-bit code units is read back from its bytes, so the
    strings that hold the bytes of a JavaScript string are all of them. *)

Lemma lor_shiftl_small (a b k : N) :
  (b < 2 ^ k)%N -> N.lor (N.shiftl a k) b = (a * 2 ^ k + b)%N.
Proof.
  intro H. rewrite N.shiftl_mul_pow2.
  assert (L : N.land (a * 2 ^ k) b = 0%N).
  { apply N.bits_inj_0. intro n. rewrite N.land_spec.
    destruct (N.lt_ge_cases n k) as [Hn|Hn].
    - now rewrite N.mul_pow2_bits_low.
    - destruct (N.eq_dec b 0) as [->|Hb].
      + now rewrite N.bits_0, andb_false_r.
      + rewrite (N.bits_above_log2 b n), andb_false_r; [reflexivity|].
        apply N.log2_lt_pow2; [lia|].
        apply N.lt_le_trans with (2 ^ k)%N; [exact H|].
        apply N.pow_le_mono_r; [discriminate | exact Hn]. }
  rewrite <- N.lxor_lor by exact L. symmetry. now apply N.add_nocarry_lxor.
Qed.

Lemma lor_128 (x : N) : (x < 64)%N -> N.lor 128 x = (128 + x)%N.
Proof.
  intro H. change 128%N with (N.shiftl 2 6) at 1.
  rewrite lor_shiftl_small by (change (2 ^ 6)%N with 64%N; exact H). reflexivity.
Qed.

Lemma lor_192 (x : N) : (x < 64)%N -> N.lor 192 x = (192 + x)%N.
Proof.
  intro H. change 192%N with (N.shiftl 3 6) at 1.
  rewrite lor_shiftl_small by (change (2 ^ 6)%N with 64%N; exact H). reflexivity.
Qed.

Lemma lor_224 (x : N) : (x < 16)%N -> N.lor 224 x = (224 + x)%N.
Proof.
  intro H. change 224%N with (N.shiftl 14 4) at 1.
  rewrite lor_shiftl_small by (change (2 ^ 4)%N with 16%N; exact H). reflexivity.
Qed.

Lemma lor_240 (x : N) : (x < 8)%N -> N.lor 240 x = (240 + x)%N.
Proof.
  intro H. change 240%N with (N.shiftl 30 3) at 1.
  rewrite lor_shiftl_small by (change (2 ^ 3)%N with 8%N; exact H). reflexivity.
Qed.

Lemma land_low (x bits : N) : N.land x (N.ones bits) = (x mod 2 ^ bits)%N.
Proof. apply N.land_ones. Qed.

Lemma mod_lead (lead x m : N) : (x < m)%N -> ((lead * m + x) mod m = x)%N.
Proof.
  intro H. symmetry. apply N.mod_unique with (q := lead); [exact H | lia].
Qed.

(** The six low bits of a continuation byte, and its range. *)
Lemma continuation_byte (x : N) :
  (x < 64)%N ->
  JS.isContinuation (N.lor 128 x) = true /\ N.land (N.lor 128 x) 63 = x.
Proof.
  intro H. rewrite lor_128 by exact H. split.
  - unfold JS.isContinuation. apply andb_true_intro. split.
    + apply N.leb_le. lia.
    + apply N.ltb_lt. lia.
  - change 63%N with (N.ones 6). rewrite land_low. change (2 ^ 6)%N with 64%N.
    apply (mod_lead 2 x 64 H).
Qed.

Lemma six_bits (x : N) : (N.land x 63 < 64)%N.
Proof.
  change 63%N with (N.ones 6). rewrite land_low. apply N.mod_lt. discriminate.
Qed.

Lemma six_bits_value (x : N) : N.land x 63 = (x mod 64)%N.
Proof. change 63%N with (N.ones 6). apply land_low. Qed.

Lemma decode_one (u : N) (tail : list N) :
  (u < 128)%N -> JS.decodeUnits (u :: tail) = u :: JS.decodeUnits tail.
Proof.
  intro H. cbn [JS.decodeUnits].
  destruct (N.ltb_spec u 128) as [_|Hge]; [reflexivity | lia].
Qed.

Lemma decode_two (b0 b1 : N) (tail : list N) :
  (192 <= b0 < 224)%N -> JS.isContinuation b1 = true ->
  JS.decodeUnits (b0 :: b1 :: tail)
  = N.lor (N.shiftl (N.land b0 31) 6) (N.land b1 63) :: JS.decodeUnits tail.
Proof.
  intros H H1. cbn [JS.decodeUnits].
  destruct (N.ltb_spec b0 128) as [Hlt|_]; [lia|].
  destruct (N.leb_spec 192 b0) as [_|Hlt]; [|lia].
  destruct (N.ltb_spec b0 224) as [_|Hge]; [|lia].
  rewrite H1. reflexivity.
Qed.

Lemma decode_three (b0 b1 b2 : N) (tail : list N) :
  (224 <= b0 < 240)%N -> JS.isContinuation b1 = true -> JS.isContinuation b2 = true ->
  JS.decodeUnits (b0 :: b1 :: b2 :: tail)
  = N.lor (N.shiftl (N.land b0 15) 12)
      (N.lor (N.shiftl (N.land b1 63) 6) (N.land b2 63))
      :: JS.decodeUnits tail.
Proof.
  intros H H1 H2. cbn [JS.decodeUnits].
  destruct (N.ltb_spec b0 128) as [Hlt|_]; [lia|].
  destruct (N.ltb_spec b0 224) as [Hlt|_]; [lia|].
  rewrite andb_false_r. cbn [andb].
  destruct (N.leb_spec 224 b0) as [_|Hlt]; [|lia].
  destruct (N.ltb_spec b0 240) as [_|Hge]; [|lia].
  rewrite H1, H2. reflexivity.
Qed.

Lemma decode_four (b0 b1 b2 b3 : N) (tail : list N) :
  (240 <= b0 < 248)%N ->
  JS.isContinuation b1 = true -> JS.isContinuation b2 = true ->
  JS.isContinuation b3 = true ->
  JS.decodeUnits (b0 :: b1 :: b2 :: b3 :: tail)
  = (55296
     + N.shiftr
         (N.lor (N.shiftl (N.land b0 7) 18)
            (N.lor (N.shiftl (N.land b1 63) 12)
               (N.lor (N.shiftl (N.land b2 63) 6) (N.land b3 63))) - 65536) 10)%N
      :: (56320
          + N.land
              (N.lor (N.shiftl (N.land b0 7) 18)
                 (N.lor (N.shiftl (N.land b1 63) 12)
                    (N.lor (N.shiftl (N.land b2 63) 6) (N.land b3 63))) - 65536)
              1023)%N
      :: JS.decodeUnits tail.
Proof.
  intros H H1 H2 H3. cbn [JS.decodeUnits].
  destruct (N.ltb_spec b0 128) as [Hlt|_]; [lia|].
  destruct (N.ltb_spec b0 224) as [Hlt|_]; [lia|].
  rewrite andb_false_r. cbn [andb].
  destruct (N.ltb_spec b0 240) as [Hlt|_]; [lia|].
  rewrite andb_false_r. cbn [andb].
  destruct (N.leb_spec 240 b0) as [_|Hlt]; [|lia].
  destruct (N.ltb_spec b0 248) as [_|Hge]; [|lia].
  rewrite H1, H2, H3. reflexivity.
Qed.

Lemma two_bytes (u : N) :
  (128 <= u < 2048)%N ->
  (192 <= N.lor 192 (N.shiftr u 6) < 224)%N
  /\ JS.isContinuation (N.lor 128 (N.land u 63)) = true
  /\ N.lor (N.shiftl (N.land (N.lor 192 (N.shiftr u 6)) 31) 6)
       (N.land (N.lor 128 (N.land u 63)) 63)
     = u.
Proof.
  intro H. rewrite N.shiftr_div_pow2. change (2 ^ 6)%N with 64%N.
  pose proof (N.Div0.div_mod u 64) as Hdm.
  pose proof (N.mod_lt u 64 ltac:(discriminate)) as Hm.
  destruct (continuation_byte (N.land u 63) (six_bits u)) as [Hc Hv].
  rewrite Hv, six_bits_value.
  assert (Hq : (u / 64 < 32)%N) by (apply N.Div0.div_lt_upper_bound; lia).
  rewrite lor_192 by lia.
  split; [lia|]. split; [rewrite <- six_bits_value; exact Hc|].
  change 31%N with (N.ones 5). rewrite land_low. change (2 ^ 5)%N with 32%N.
  replace (192 + u / 64)%N with (6 * 32 + u / 64)%N by lia.
  rewrite (mod_lead 6 (u / 64) 32 Hq).
  rewrite lor_shiftl_small by (change (2 ^ 6)%N with 64%N; exact Hm).
  change (2 ^ 6)%N with 64%N. lia.
Qed.

Lemma three_bytes (u : N) :
  (2048 <= u < 65536)%N ->
  (224 <= N.lor 224 (N.shiftr u 12) < 240)%N
  /\ JS.isContinuation (N.lor 128 (N.land (N.shiftr u 6) 63)) = true
  /\ JS.isContinuation (N.lor 128 (N.land u 63)) = true
  /\ N.lor (N.shiftl (N.land (N.lor 224 (N.shiftr u 12)) 15) 12)
       (N.lor (N.shiftl (N.land (N.lor 128 (N.land (N.shiftr u 6) 63)) 63) 6)
          (N.land (N.lor 128 (N.land u 63)) 63))
     = u.
Proof.
  intro H. rewrite !N.shiftr_div_pow2.
  change (2 ^ 6)%N with 64%N. change (2 ^ 12)%N with (64 * 64)%N.
  rewrite <- N.Div0.div_div.
  pose proof (N.Div0.div_mod u 64) as Hdm.
  pose proof (N.mod_lt u 64 ltac:(discriminate)) as Hm.
  pose proof (N.Div0.div_mod (u / 64) 64) as Hdm'.
  pose proof (N.mod_lt (u / 64) 64 ltac:(discriminate)) as Hm'.
  destruct (continuation_byte (N.land u 63) (six_bits u)) as [Hc0 Hv0].
  destruct (continuation_byte (N.land (u / 64) 63) (six_bits (u / 64))) as [Hc1 Hv1].
  rewrite Hv0, Hv1, !six_bits_value.
  assert (Hq : (u / 64 / 64 < 16)%N)
    by (apply N.Div0.div_lt_upper_bound, N.Div0.div_lt_upper_bound; lia).
  rewrite lor_224 by exact Hq.
  split; [lia|].
  split; [rewrite <- six_bits_value; exact Hc1|].
  split; [rewrite <- six_bits_value; exact Hc0|].
  change 15%N with (N.ones 4). rewrite land_low. change (2 ^ 4)%N with 16%N.
  replace (224 + u / 64 / 64)%N with (14 * 16 + u / 64 / 64)%N by lia.
  rewrite (mod_lead 14 (u / 64 / 64) 16 Hq).
  rewrite (lor_shiftl_small ((u / 64) mod 64) (u mod 64) 6)
    by (change (2 ^ 6)%N with 64%N; exact Hm).
  change (2 ^ 6)%N with 64%N.
  rewrite lor_shiftl_small by (change (2 ^ 12)%N with 4096%N; lia).
  change (2 ^ 12)%N with 4096%N. lia.
Qed.

Lemma four_bytes (c : N) :
  (65536 <= c < 2097152)%N ->
  (240 <= N.lor 240 (N.shiftr c 18) < 248)%N
  /\ JS.isContinuation (N.lor 128 (N.land (N.shiftr c 12) 63)) = true
  /\ JS.isContinuation (N.lor 128 (N.land (N.shiftr c 6) 63)) = true
  /\ JS.isContinuation (N.lor 128 (N.land c 63)) = true
  /\ N.lor (N.shiftl (N.land (N.lor 240 (N.shiftr c 18)) 7) 18)
       (N.lor (N.shiftl (N.land (N.lor 128 (N.land (N.shiftr c 12) 63)) 63) 12)
          (N.lor (N.shiftl (N.land (N.lor 128 (N.land (N.shiftr c 6) 63)) 63) 6)
             (N.land (N.lor 128 (N.land c 63)) 63)))
     = c.
Proof.
  intro H. rewrite !N.shiftr_div_pow2.
  change (2 ^ 6)%N with 64%N. change (2 ^ 12)%N with (64 * 64)%N.
  change (2 ^ 18)%N with (64 * 64 * 64)%N.
  rewrite <- !N.Div0.div_div.
  pose proof (N.Div0.div_mod c 64) as Hd0.
  pose proof (N.mod_lt c 64 ltac:(discriminate)) as Hm0.
  pose proof (N.Div0.div_mod (c / 64) 64) as Hd1.
  pose proof (N.mod_lt (c / 64) 64 ltac:(discriminate)) as Hm1.
  pose proof (N.Div0.div_mod (c / 64 / 64) 64) as Hd2.
  pose proof (N.mod_lt (c / 64 / 64) 64 ltac:(discriminate)) as Hm2.
  destruct (continuation_byte (N.land c 63) (six_bits c)) as [Hc0 Hv0].
  destruct (continuation_byte (N.land (c / 64) 63) (six_bits (c / 64))) as [Hc1 Hv1].
  destruct (continuation_byte (N.land (c / 64 / 64) 63) (six_bits (c / 64 / 64)))
    as [Hc2 Hv2].
  rewrite Hv0, Hv1, Hv2, !six_bits_value.
  assert (Hq : (c / 64 / 64 / 64 < 8)%N)
    by (repeat apply N.Div0.div_lt_upper_bound; lia).
  rewrite lor_240 by exact Hq.
  split; [lia|].
  split; [rewrite <- six_bits_value; exact Hc2|].
  split; [rewrite <- six_bits_value; exact Hc1|].
  split; [rewrite <- six_bits_value; exact Hc0|].
  change 7%N with (N.ones 3). rewrite land_low. change (2 ^ 3)%N with 8%N.
  replace (240 + c / 64 / 64 / 64)%N with (30 * 8 + c / 64 / 64 / 64)%N by lia.
  rewrite (mod_lead 30 (c / 64 / 64 / 64) 8 Hq).
  rewrite (lor_shiftl_small ((c / 64) mod 64) (c mod 64) 6)
    by (change (2 ^ 6)%N with 64%N; exact Hm0).
  change (2 ^ 6)%N with 64%N.
  rewrite (lor_shiftl_small ((c / 64 / 64) mod 64) _ 12)
    by (change (2 ^ 12)%N with 4096%N; lia).
  change (2 ^ 12)%N with 4096%N.
  rewrite lor_shiftl_small by (change (2 ^ 18)%N with 262144%N; lia).
  change (2 ^ 18)%N with 262144%N. lia.
Qed.

Lemma surrogate_pair (u v : N) :
  JS.isHighSurrogate u = true -> JS.isLowSurrogate v = true ->
  (65536 <= 65536 + N.shiftl (u - 55296) 10 + (v - 56320) < 2097152)%N
  /\ (55296 + N.shiftr (65536 + N.shiftl (u - 55296) 10 + (v - 56320) - 65536) 10)%N = u
  /\ (56320 + N.land (65536 + N.shiftl (u - 55296) 10 + (v - 56320) - 65536) 1023)%N = v.
Proof.
  unfold JS.isHighSurrogate, JS.isLowSurrogate. intros Hu Hv.
  apply andb_prop in Hu. destruct Hu as [Hu1 Hu2].
  apply andb_prop in Hv. destruct Hv as [Hv1 Hv2].
  apply N.leb_le in Hu1, Hv1. apply N.ltb_lt in Hu2, Hv2.
  rewrite N.shiftl_mul_pow2, N.shiftr_div_pow2. change (2 ^ 10)%N with 1024%N.
  change 1023%N with (N.ones 10). rewrite land_low. change (2 ^ 10)%N with 1024%N.
  replace (65536 + (u - 55296) * 1024 + (v - 56320) - 65536)%N
    with ((u - 55296) * 1024 + (v - 56320))%N by lia.
  assert (Hlow : (v - 56320 < 1024)%N) by lia.
  rewrite (mod_lead (u - 55296) (v - 56320) 1024 Hlow).
  rewrite N.div_add_l by discriminate.
  rewrite (N.div_small (v - 56320) 1024 Hlow).
  split; [lia|]. split; lia.
Qed.

Lemma encodeUnits_cons (u : N) (rest : list N) :
  JS.encodeUnits (u :: rest)
  = if (u <? 128)%N then u :: JS.encodeUnits rest
    else if (u <? 2048)%N then
      N.lor 192 (N.shiftr u 6) :: N.lor 128 (N.land u 63) :: JS.encodeUnits rest
    else
      match rest with
      | [] =>
          [N.lor 224 (N.shiftr u 12);
           N.lor 128 (N.land (N.shiftr u 6) 63);
           N.lor 128 (N.land u 63)]
      | v :: rest' =>
          if JS.isHighSurrogate u && JS.isLowSurrogate v then
            N.lor 240 (N.shiftr (65536 + N.shiftl (u - 55296) 10 + (v - 56320)) 18)
              :: N.lor 128
                   (N.land (N.shiftr (65536 + N.shiftl (u - 55296) 10 + (v - 56320)) 12) 63)
              :: N.lor 128
                   (N.land (N.shiftr (65536 + N.shiftl (u - 55296) 10 + (v - 56320)) 6) 63)
              :: N.lor 128 (N.land (65536 + N.shiftl (u - 55296) 10 + (v - 56320)) 63)
              :: JS.encodeUnits rest'
          else
            N.lor 224 (N.shiftr u 12)
              :: N.lor 128 (N.land (N.shiftr u 6) 63)
              :: N.lor 128 (N.land u 63)
              :: JS.encodeUnits rest
      end.
Proof.
  destruct rest as [|v rest']; reflexivity.
Qed.

Lemma decode_encode_bounded (n : nat) :
  forall units : list N,
    List.length units <= n ->
    Forall (fun u => (u < 65536)%N) units ->
    JS.decodeUnits (JS.encodeUnits units) = units.
Proof.
  induction n as [|n IH]; intros units Hlen Hall.
  - destruct units; [reflexivity | simpl in Hlen; lia].
  - destruct units as [|u rest]; [reflexivity|].
    inversion_clear Hall as [|? ? Hu Hrest]. simpl in Hlen.
    rewrite encodeUnits_cons.
    destruct (N.ltb_spec u 128) as [H1|H1].
    { rewrite decode_one by exact H1. f_equal. apply IH; [lia | exact Hrest]. }
    destruct (N.ltb_spec u 2048) as [H2|H2].
    { destruct (two_bytes u (conj H1 H2)) as (Hb0 & Hb1 & Hval).
      rewrite decode_two by assumption. rewrite Hval. f_equal.
      apply IH; [lia | exact Hrest]. }
    destruct (three_bytes u (conj H2 Hu)) as (Hb0 & Hb1 & Hb2 & Hval).
    destruct rest as [|v rest'].
    { rewrite decode_three by assumption. rewrite Hval. reflexivity. }
    destruct (JS.isHighSurrogate u && JS.isLowSurrogate v) eqn:P.
    + apply andb_prop in P. destruct P as [Ph Pl].
      destruct (surrogate_pair u v Ph Pl) as (Hc & Hhigh & Hlow).
      destruct (four_bytes _ Hc) as (Hc0 & Hc1 & Hc2 & Hc3 & Hcode).
      rewrite decode_four by assumption. rewrite Hcode, Hhigh, Hlow.
      do 2 f_equal. inversion_clear Hrest as [|? ? _ Hrest'].
      apply IH; [simpl in Hlen; lia | exact Hrest'].
    + rewrite decode_three by assumption. rewrite Hval. f_equal.
      apply IH; [lia | exact Hrest].
Qed.

Lemma continuation_bound (b : N) : JS.isContinuation b = true -> (b < 256)%N.
Proof.
  unfold JS.isContinuation. intro H. apply andb_prop in H. destruct H as [_ H].
  apply N.ltb_lt in H. lia.
Qed.

Lemma encode_bytes_bounded (n : nat) :
  forall units : list N,
    List.length units <= n ->
    Forall (fun u => (u < 65536)%N) units ->
    Forall (fun b => (b < 256)%N) (JS.encodeUnits units).
Proof.
  induction n as [|n IH]; intros units Hlen Hall.
  - destruct units; [constructor | simpl in Hlen; lia].
  - destruct units as [|u rest]; [constructor|].
    inversion_clear Hall as [|? ? Hu Hrest]. simpl in Hlen.
    rewrite encodeUnits_cons.
    destruct (N.ltb_spec u 128) as [H1|H1].
    { constructor; [lia | apply IH; [lia | exact Hrest]]. }
    destruct (N.ltb_spec u 2048) as [H2|H2].
    { destruct (two_bytes u (conj H1 H2)) as (Hb0 & Hb1 & _).
      constructor; [lia|]. constructor; [now apply continuation_bound|].
      apply IH; [lia | exact Hrest]. }
    destruct (three_bytes u (conj H2 Hu)) as (Hb0 & Hb1 & Hb2 & _).
    destruct rest as [|v rest'].
    { repeat constructor; [lia | now apply continuation_bound
                           | now apply continuation_bound]. }
    destruct (JS.isHighSurrogate u && JS.isLowSurrogate v) eqn:P.
    + apply andb_prop in P. destruct P as [Ph Pl].
      destruct (surrogate_pair u v Ph Pl) as (Hc & _).
      destruct (four_bytes _ Hc) as (Hc0 & Hc1 & Hc2 & Hc3 & _).
      constructor; [lia|].
      constructor; [now apply continuation_bound|].
      constructor; [now apply continuation_bound|].
      constructor; [now apply continuation_bound|].
      inversion_clear Hrest as [|? ? _ Hrest'].
      apply IH; [simpl in Hlen; lia | exact Hrest'].
    + constructor; [lia|].
      constructor; [now apply continuation_bound|].
      constructor; [now apply continuation_bound|].
      apply IH; [lia | exact Hrest].
Qed.

(** Reading the code units of the bytes written for [units] gives [units]
    back, whatever the code units are: surrogates, paired or not, too. *)
Lemma codeUnits_fromCodeUnits (units : list N) :
  Forall (fun u => (u < 65536)%N) units ->
  JS.codeUnits (JS.fromCodeUnits units) = units.
Proof.
  intro H. unfold JS.codeUnits, JS.fromCodeUnits.
  rewrite list_ascii_of_string_of_list_ascii, map_map.
  rewrite <- (decode_encode_bounded (List.length units) units (le_n _) H) at 2.
  f_equal.
  pose proof (encode_bytes_bounded (List.length units) units (le_n _) H) as Hb.
  induction Hb as [|b bytes Hb _ IH]; [reflexivity|].
  simpl. rewrite IH. f_equal. now apply N_ascii_embedding.
Qed.

(** So every JavaScript string is held by a well-encoded [string]. *)
Lemma fromCodeUnits_wellEncoded (units : list N) :
  Forall (fun u => (u < 65536)%N) units -> JS.wellEncoded (JS.fromCodeUnits units).
Proof.
  intro H. unfold JS.wellEncoded. now rewrite codeUnits_fromCodeUnits.
Qed.

Lemma firstn_min {A : Type} (l : list A) (n : nat) :
  firstn (Nat.min n (List.length l)) l = firstn n l.
Proof.
  destruct (Nat.le_ge_cases n (List.length l)) as [H|H].
  - now rewrite Nat.min_l.
  - rewrite Nat.min_r, firstn_all by exact H. symmetry. now apply firstn_all2.
Qed.

(** [substring(0, n)] is the first [n] code units, or the whole string when
    it has no more than [n]. *)
Lemma substring_from_0 (s : string) (n : Z) :
  (0 <= n)%Z ->
  JS.substring s 0 n = JS.fromCodeUnits (firstn (Z.to_nat n) (JS.codeUnits s)).
Proof.
  intro H. unfold JS.substring, JS.length.
  set (units := JS.codeUnits s).
  replace (Z.to_nat
             (Z.min (Z.max 0 0) (Z.of_nat (List.length units)))) with 0%nat by lia.
  replace (Z.to_nat
             (Z.min (Z.min (Z.max 0 0) (Z.of_nat (List.length units)))
                (Z.min (Z.max n 0) (Z.of_nat (List.length units)))))
    with 0%nat by lia.
  replace (Z.to_nat
             (Z.max (Z.min (Z.max 0 0) (Z.of_nat (List.length units)))
                (Z.min (Z.max n 0) (Z.of_nat (List.length units)))
              - Z.min (Z.min (Z.max 0 0) (Z.of_nat (List.length units)))
                  (Z.min (Z.max n 0) (Z.of_nat (List.length units)))))
    with (Nat.min (Z.to_nat n) (List.length units)) by lia.
  cbn [skipn]. now rewrite firstn_min.
Qed.

Lemma substring_short (s : string) (n : Z) :
  JS.wellEncoded s -> (Z.of_nat (JS.length s) <= n)%Z -> JS.substring s 0 n = s.
Proof.
  intros Hs H. rewrite substring_from_0 by lia.
  rewrite firstn_all2 by (unfold JS.length in H; lia). exact Hs.
Qed.

Lemma occursIn_here (part after : string) : occursIn part (part ++ after).
Proof. exists "", after. reflexivity. Qed.

Lemma occursIn_append_l (part a b : string) : occursIn part a -> occursIn part (a ++ b).
Proof.
  intros (x & y & ->). exists x, (y ++ b). now rewrite !append_assoc.
Qed.

Lemma occursIn_append_r (part a b : string) : occursIn part b -> occursIn part (a ++ b).
Proof.
  intros (x & y & ->). exists (a ++ x), y. now rewrite !append_assoc.
Qed.

Lemma occursIn_join (part : string) (l : list string) :
  In part l -> occursIn part (JS.join l).
Proof.
  induction l as [|x l IH]; simpl; intros H; [contradiction|].
  destruct H as [->|H].
  - apply occursIn_here.
  - apply occursIn_append_r, IH, H.
Qed.

Lemma oversizedWarning_not_notPdfWarning (fileName : string) :
  oversizedWarning fileName <> notPdfWarning.
Proof.
  unfold oversizedWarning, notPdfWarning. simpl. discriminate.
Qed.

(** ** Selection manager: [addFiles] *)

Lemma addFiles_present_unchanged (files : list File) (st : State) :
  (forall file, In file files -> In (name file) (map name (selectedFiles st))) ->
  selectedFiles (exec (addFiles files) st) = selectedFiles st.
Proof.
  intro H.
  destruct (addFiles_cases files st) as [[_ E]|[(first & rest & _ & E)|(_ & _ & E)]];
    rewrite E; simpl; try reflexivity.
  apply fold_appendNew_present. intros file Hf. apply H.
  apply filter_In in Hf. tauto.
Qed.

(** C1.  Starting from the empty selection list, after any sequence of calls
    to [addFiles], with any batches, no two entries of the list have the same
    [name]; and in any state, calling [addFiles] with a file whose name is
    already in the list leaves the length of the list unchanged. *)
Theorem addFiles_never_duplicates_a_name :
  (forall (st : State) (batches : list (list File)),
      selectedFiles st = [] ->
      uniqueNames (exec (forEach batches addFiles) st))
  /\ (forall (st : State) (file : File),
         In (name file) (map name (selectedFiles st)) ->
         List.length (selectedFiles (exec (addFiles [file]) st))
         = List.length (selectedFiles st)).
Proof.
  split.
  - intros st batches H. apply forEach_invariant.
    + intros files st'. apply addFiles_unique.
    + unfold uniqueNames. rewrite H. constructor.
  - intros st file H. f_equal. apply addFiles_present_unchanged.
    intros f [<-|[]]. exact H.
Qed.

Lemma addFiles_never_duplicates_a_name_witness :
  uniqueNames
    (exec (forEach [[Sample.a_pdf; Sample.notes_txt]; [Sample.b_pdf; Sample.a_pdf]] addFiles)
       Sample.page)
  /\ List.length (selectedFiles (exec (addFiles [Sample.a_pdf]) Sample.twoSelected))
     = List.length (selectedFiles Sample.twoSelected).
Proof.
  assert (Hin : In (name Sample.a_pdf) (map name (selectedFiles Sample.twoSelected)))
    by (left; reflexivity).
  split.
  - exact (proj1 addFiles_never_duplicates_a_name Sample.page _ eq_refl).
  - exact (proj2 addFiles_never_duplicates_a_name Sample.twoSelected Sample.a_pdf Hin).
Defined.

(** C4.  When the PDF-filtered candidates of a call to [addFiles] hold a file
    larger than 16 MiB, the call changes nothing but the alerts: it reports a
    warning that names an oversized PDF of the batch, and the selection list
    is the one before the call. *)
Theorem addFiles_aborts_on_oversized :
  forall (files : list File) (st : State),
    (exists file, In file (filter isPdf files) /\ (16 * 1024 * 1024 < size file)%N) ->
    exists first,
      In first (filter isPdf files)
      /\ (16 * 1024 * 1024 < size first)%N
      /\ occursIn (name first) (oversizedWarning (name first))
      /\ exec (addFiles files) st
         = set_alerts (alerts st ++ [oversizedWarning (name first)]) st
      /\ selectedFiles (exec (addFiles files) st) = selectedFiles st.
Proof.
  intros files st (file & Hin & Hsize).
  destruct (filter isOversized (filter isPdf files)) as [|first rest] eqn:E.
  - exfalso.
    assert (Hf : In file (filter isOversized (filter isPdf files))).
    { apply filter_In. split; [exact Hin|]. unfold isOversized. now apply N.ltb_lt. }
    rewrite E in Hf. exact Hf.
  - assert (Hf : In first (filter isOversized (filter isPdf files)))
      by (rewrite E; now left).
    apply filter_In in Hf. destruct Hf as [Hpdf Hover].
    unfold isOversized in Hover. apply N.ltb_lt in Hover.
    exists first. repeat split; try assumption.
    + unfold oversizedWarning. apply occursIn_append_r, occursIn_here.
    + now apply addFiles_oversized with (rest := rest).
    + rewrite (addFiles_oversized files st first rest E). reflexivity.
Qed.

Lemma addFiles_aborts_on_oversized_witness :
  exists first,
    In first (filter isPdf [Sample.a_pdf; Sample.big_pdf])
    /\ (16 * 1024 * 1024 < size first)%N
    /\ occursIn (name first) (oversizedWarning (name first))
    /\ exec (addFiles [Sample.a_pdf; Sample.big_pdf]) Sample.page
       = set_alerts (alerts Sample.page ++ [oversizedWarning (name first)]) Sample.page
    /\ selectedFiles (exec (addFiles [Sample.a_pdf; Sample.big_pdf]) Sample.page)
       = selectedFiles Sample.page.
Proof.
  assert (H : exists file,
             In file (filter isPdf [Sample.a_pdf; Sample.big_pdf])
             /\ (16 * 1024 * 1024 < size file)%N).
  { exists Sample.big_pdf. split.
    - right. left. reflexivity.
    - reflexivity. }
  exact (addFiles_aborts_on_oversized [Sample.a_pdf; Sample.big_pdf] Sample.page H).
Defined.

(** C5, as stated, fails: in a batch that holds a text file, a PDF within the
    limit and a PDF over it, the filtered set is not empty and yet a warning
    is issued, so warning and empty filtered set are not equivalent. *)
Lemma addFiles_warns_with_pdf_present :
  filter isPdf Sample.mixedBatch = [Sample.a_pdf; Sample.big_pdf]
  /\ alerts (exec (addFiles Sample.mixedBatch) Sample.page)
     = [oversizedWarning "big.pdf"]
  /\ ~ (warns Sample.mixedBatch Sample.page <-> filter isPdf Sample.mixedBatch = []).
Proof.
  split; [reflexivity|]. split; [reflexivity|].
  intros [H _].
  assert (W : warns Sample.mixedBatch Sample.page) by (vm_compute; discriminate).
  apply H in W. discriminate W.
Qed.

(** C5, amended.  [addFiles] keeps exactly the candidates whose MIME type is
    "application/pdf" or whose name ends in ".pdf".  It issues the warning
    that asks for a PDF if and only if that filtered set is empty, and then
    nothing else of the state changes.  When the filtered set is not empty and
    none of its files exceeds 16 MiB, no warning is issued at all: the list
    grows only by files of the filtered set, and the name of each of them is
    in the list afterwards. *)
Theorem addFiles_keeps_pdf_files :
  forall (files : list File) (st : State),
    (forall file,
        In file (filter isPdf files)
        <-> In file files
            /\ (type file = "application/pdf" \/ exists stem, name file = stem ++ ".pdf"))
    /\ (alerts (exec (addFiles files) st) = (alerts st ++ [notPdfWarning])%list
        <-> filter isPdf files = [])
    /\ (filter isPdf files = [] ->
        exec (addFiles files) st = set_alerts (alerts st ++ [notPdfWarning]) st)
    /\ (filter isPdf files <> [] ->
        (forall file, In file (filter isPdf files) -> (size file <= 16 * 1024 * 1024)%N) ->
        alerts (exec (addFiles files) st) = alerts st
        /\ (exists added,
               selectedFiles (exec (addFiles files) st) = (selectedFiles st ++ added)%list
               /\ incl added (filter isPdf files))
        /\ (forall file,
               In file (filter isPdf files) ->
               In (name file) (map name (selectedFiles (exec (addFiles files) st))))).
Proof.
  intros files st. split; [|split; [|split]].
  - intro file. rewrite filter_In, isPdf_iff. reflexivity.
  - split.
    + intro H.
      destruct (addFiles_cases files st) as [[E _]|[(first & rest & _ & E)|(_ & _ & E)]].
      * exact E.
      * rewrite E in H. simpl in H. apply app_inv_head in H.
        destruct (oversizedWarning_not_notPdfWarning _ (f_equal (hd "") H)).
      * rewrite E in H. simpl in H. apply (f_equal (@List.length string)) in H.
        rewrite length_app in H. simpl in H. lia.
    + intro H. rewrite (addFiles_no_pdf files st H). reflexivity.
  - apply addFiles_no_pdf.
  - intros Hne Hsmall.
    assert (O : filter isOversized (filter isPdf files) = []).
    { destruct (filter isOversized (filter isPdf files)) as [|first rest] eqn:E;
        [reflexivity|].
      assert (Hf : In first (filter isOversized (filter isPdf files)))
        by (rewrite E; now left).
      apply filter_In in Hf. destruct Hf as [Hpdf Hover].
      unfold isOversized in Hover. apply N.ltb_lt in Hover.
      apply Hsmall in Hpdf. lia. }
    rewrite (addFiles_accepted files st Hne O). simpl.
    split; [reflexivity|]. split.
    + apply fold_appendNew_extends.
    + intros file Hf. now apply fold_appendNew_listed.
Qed.

Lemma addFiles_keeps_pdf_files_witness :
  alerts (exec (addFiles [Sample.notes_txt]) Sample.page)
  = (alerts Sample.page ++ [notPdfWarning])%list
  /\ exec (addFiles [Sample.notes_txt]) Sample.page
     = set_alerts (alerts Sample.page ++ [notPdfWarning]) Sample.page
  /\ alerts (exec (addFiles [Sample.notes_txt; Sample.a_pdf]) Sample.page)
     = alerts Sample.page
  /\ In (name Sample.a_pdf)
       (map name (selectedFiles (exec (addFiles [Sample.notes_txt; Sample.a_pdf]) Sample.page))).
Proof.
  pose proof (addFiles_keeps_pdf_files [Sample.notes_txt] Sample.page)
    as (_ & Hwarn & Hsame & _).
  pose proof (addFiles_keeps_pdf_files [Sample.notes_txt; Sample.a_pdf] Sample.page)
    as (_ & _ & _ & Hmixed).
  assert (Hne : filter isPdf [Sample.notes_txt; Sample.a_pdf] <> [])
    by (vm_compute; discriminate).
  assert (Hsmall : forall file,
             In file (filter isPdf [Sample.notes_txt; Sample.a_pdf]) ->
             (size file <= 16 * 1024 * 1024)%N).
  { intros file [<-|[]]. vm_compute. discriminate. }
  destruct (Hmixed Hne Hsmall) as (Hquiet & _ & Hlisted).
  split; [apply Hwarn; reflexivity|].
  split; [apply Hsame; reflexivity|].
  split; [exact Hquiet|].
  apply Hlisted. vm_compute. left. reflexivity.
Defined.

(** C6.  The limit is exact.  A PDF of 16 * 1024 * 1024 + 1 bytes is rejected:
    the call only reports the warning that names it.  A PDF of exactly
    16 * 1024 * 1024 bytes is accepted: no warning is reported, its name is in
    the list afterwards, and the file itself is appended when its name was not
    there before. *)
Theorem size_limit_is_exact :
  forall (file : File) (st : State),
    isPdf file = true ->
    (size file = (16 * 1024 * 1024 + 1)%N ->
     exec (addFiles [file]) st = set_alerts (alerts st ++ [oversizedWarning (name file)]) st)
    /\ (size file = (16 * 1024 * 1024)%N ->
        alerts (exec (addFiles [file]) st) = alerts st
        /\ In (name file) (map name (selectedFiles (exec (addFiles [file]) st)))
        /\ (~ In (name file) (map name (selectedFiles st)) ->
            selectedFiles (exec (addFiles [file]) st) = (selectedFiles st ++ [file])%list)).
Proof.
  intros file st Hpdf.
  assert (F : filter isPdf [file] = [file]) by (simpl; now rewrite Hpdf).
  split; intro Hsize.
  - apply addFiles_oversized with (rest := []). rewrite F. simpl.
    unfold isOversized. rewrite Hsize. reflexivity.
  - assert (O : filter isOversized (filter isPdf [file]) = []).
    { rewrite F. simpl. unfold isOversized. rewrite Hsize. reflexivity. }
    rewrite (addFiles_accepted [file] st); [| rewrite F; discriminate | exact O].
    rewrite F. simpl. split; [reflexivity|]. split.
    + apply appendNew_listed.
    + apply appendNew_absent.
Qed.

Lemma size_limit_is_exact_witness :
  exec (addFiles [Sample.big_pdf]) Sample.page
  = set_alerts (alerts Sample.page ++ [oversizedWarning (name Sample.big_pdf)]) Sample.page
  /\ selectedFiles (exec (addFiles [Sample.b_pdf]) Sample.page)
     = (selectedFiles Sample.page ++ [Sample.b_pdf])%list.
Proof.
  pose proof (size_limit_is_exact Sample.big_pdf Sample.page eq_refl) as [Hbig _].
  pose proof (size_limit_is_exact Sample.b_pdf Sample.page eq_refl) as [_ Hb].
  destruct (Hb eq_refl) as (_ & _ & Hnew).
  split.
  - exact (Hbig eq_refl).
  - apply Hnew. simpl. tauto.
Defined.

(** ** Selection manager: [removeFile] *)

(** C7, as stated, fails: with two files selected, [removeFile(-1)] removes
    the last one. *)
Lemma removeFile_negative_index_removes :
  selectedFiles Sample.twoSelected = [Sample.a_pdf; Sample.b_pdf]
  /\ selectedFiles (exec (removeFile (-1)) Sample.twoSelected) = [Sample.a_pdf]
  /\ selectedFiles (exec (removeFile (-1)) Sample.twoSelected)
     <> selectedFiles Sample.twoSelected.
Proof.
  split; [reflexivity|]. split; [reflexivity|]. vm_compute. discriminate.
Qed.

(** C7, amended.  [removeFile] is total.  For every index at or beyond the
    current length it leaves the list as it is.  A negative index counts from
    the end of the list, clamped at the first entry: the entry at that place
    is removed, so a list that is not empty gets one entry shorter. *)
Theorem removeFile_out_of_range :
  forall (index : Z) (st : State),
    ((Z.of_nat (List.length (selectedFiles st)) <= index)%Z ->
     selectedFiles (exec (removeFile index) st) = selectedFiles st)
    /\ ((index < 0)%Z ->
        let at_ := Z.to_nat (Z.max (Z.of_nat (List.length (selectedFiles st)) + index) 0) in
        selectedFiles (exec (removeFile index) st)
        = (firstn at_ (selectedFiles st) ++ skipn (S at_) (selectedFiles st))%list
        /\ (selectedFiles st <> [] ->
            S (List.length (selectedFiles (exec (removeFile index) st)))
            = List.length (selectedFiles st))).
Proof.
  intros index st. rewrite removeFile_exec, accepted_selectedFiles. split.
  - apply splice_beyond.
  - intros H at_. rewrite (splice_negative (selectedFiles st) index H). fold at_.
    split; [reflexivity|].
    intro Hne. apply length_remove_at.
    destruct (selectedFiles st) as [|f l]; [contradiction|].
    subst at_. simpl List.length. lia.
Qed.

Lemma removeFile_out_of_range_witness :
  selectedFiles (exec (removeFile 2) Sample.twoSelected) = selectedFiles Sample.twoSelected
  /\ S (List.length (selectedFiles (exec (removeFile (-5)) Sample.twoSelected)))
     = List.length (selectedFiles Sample.twoSelected).
Proof.
  pose proof (removeFile_out_of_range 2 Sample.twoSelected) as [Hbeyond _].
  pose proof (removeFile_out_of_range (-5) Sample.twoSelected) as [_ Hnegative].
  assert (H2 : (Z.of_nat (List.length (selectedFiles Sample.twoSelected)) <= 2)%Z)
    by (vm_compute; discriminate).
  assert (H5 : (-5 < 0)%Z) by reflexivity.
  assert (Hne : selectedFiles Sample.twoSelected <> []) by (vm_compute; discriminate).
  split.
  - exact (Hbeyond H2).
  - exact (proj2 (Hnegative H5) Hne).
Defined.

(** ** [formatFileSize] *)

(** The integer logarithm: [floorLog k n] is the exponent of the largest power
    of [k] that does not exceed [n]. *)
Lemma floorLogAux_spec (k : N) (fuel : nat) :
  (2 <= k)%N ->
  forall n : N,
    (1 <= n)%N -> (n < 2 ^ N.of_nat fuel)%N ->
    (k ^ JS.floorLogAux fuel k n <= n < k ^ (JS.floorLogAux fuel k n + 1))%N.
Proof.
  intro Hk. induction fuel as [|fuel IH]; intros n Hn Hfuel.
  - simpl in Hfuel. lia.
  - cbn [JS.floorLogAux]. destruct (N.ltb_spec n k) as [Hlt|Hge].
    + rewrite N.pow_0_r, N.add_0_l, N.pow_1_r. lia.
    + assert (Hq : (1 <= n / k)%N) by (apply N.div_le_lower_bound; lia).
      assert (Hf : (n / k < 2 ^ N.of_nat fuel)%N).
      { apply N.Div0.div_lt_upper_bound.
        rewrite Nat2N.inj_succ, N.pow_succ_r' in Hfuel. nia. }
      specialize (IH (n / k)%N Hq Hf).
      set (j := JS.floorLogAux fuel k (n / k)) in *.
      pose proof (N.Div0.div_mod n k) as Hdm.
      pose proof (N.mod_lt n k ltac:(lia)) as Hm.
      replace (1 + j + 1)%N with (N.succ (j + 1)) by lia.
      replace (1 + j)%N with (N.succ j) by lia.
      rewrite !N.pow_succ_r'.
      generalize dependent (k ^ j)%N. generalize dependent (k ^ (j + 1))%N.
      intros hi lo [Hlo Hhi].
      generalize dependent (n / k)%N. generalize dependent (n mod k)%N.
      intros r Hr q Hq1 Hq2 Hn' Hlo Hhi. subst n.
      split.
      * apply N.le_trans with (k * q)%N; [now apply N.mul_le_mono_l | lia].
      * apply N.lt_le_trans with (k * (q + 1))%N; [lia|].
        apply N.mul_le_mono_l. lia.
Qed.

Lemma floorLog_spec (k n : N) :
  (2 <= k)%N -> (1 <= n)%N ->
  (k ^ JS.floorLog k n <= n < k ^ (JS.floorLog k n + 1))%N.
Proof.
  intros Hk Hn. unfold JS.floorLog. apply floorLogAux_spec; try assumption.
  rewrite N2Nat.id. apply N.size_gt.
Qed.

(** For a size that is not zero, the unit index is the exponent of the largest
    power of 1024 that does not exceed the size. *)
Lemma unitIndex_spec (bytes : N) :
  (1 <= bytes)%N ->
  (1024 ^ unitIndex bytes <= bytes < 1024 ^ (unitIndex bytes + 1))%N.
Proof.
  intro H. apply floorLog_spec; lia.
Qed.

(** [Math.round(a / b)] is within a half of the quotient. *)
Lemma roundDiv_spec (a b : N) :
  (0 < b)%N ->
  (2 * b * JS.roundDiv a b <= 2 * a + b < 2 * b * (JS.roundDiv a b + 1))%N.
Proof.
  intro Hb. unfold JS.roundDiv.
  pose proof (N.Div0.div_mod (2 * a + b) (2 * b)) as Hdm.
  pose proof (N.mod_lt (2 * a + b) (2 * b) ltac:(lia)) as Hm.
  generalize dependent ((2 * a + b) / (2 * b))%N.
  generalize dependent ((2 * a + b) mod (2 * b))%N.
  intros r Hr q Hq. rewrite N.mul_add_distr_l. lia.
Qed.

Lemma formatFileSize_unfold (bytes : N) :
  (1 <= bytes)%N ->
  formatFileSize bytes
  = JS.hundredthsToString (JS.roundDiv (bytes * 100) (1024 ^ unitIndex bytes))
      ++ " " ++ JS.stringOrUndefined (nth_error sizes (N.to_nat (unitIndex bytes))).
Proof.
  intro H. unfold formatFileSize.
  destruct (N.eqb_spec bytes 0) as [E|_]; [lia | reflexivity].
Qed.

(** C8.  [formatFileSize] gives "0 Bytes" for 0, "1 KB" for 1024 and
    "1.46 KB" for 1500. *)
Theorem formatFileSize_examples :
  formatFileSize 0 = "0 Bytes"
  /\ formatFileSize 1024 = "1 KB"
  /\ formatFileSize 1500 = "1.46 KB".
Proof.
  repeat split; vm_compute; reflexivity.
Qed.

Lemma formatFileSize_exact (bytes : N) :
  formatFileSize bytes = formatFileSizeWith unitIndex exactAmount bytes.
Proof. reflexivity. Qed.




(** ** Generation orchestrator: [displayResults] *)

Lemma occursIn_trans (a b c : string) : occursIn a b -> occursIn b c -> occursIn a c.
Proof.
  intros (x & y & ->) (u & v & ->). exists (u ++ x), (y ++ v).
  now rewrite !append_assoc.
Qed.

Lemma fold_left_html {A : Type} (f : A -> string) (l : list A) (html : string) :
  fold_left (fun html x => html ++ f x) l html = html ++ JS.join (map f l).
Proof.
  revert html. induction l as [|x l IH]; intro html; simpl.
  - now rewrite append_nil_r.
  - now rewrite IH, append_assoc.
Qed.

Lemma displayResults_exec {number : Type} (numberToString : number -> string)
    (data : BatchResponse number) (st : State) :
  exec (displayResults numberToString data) st
  = if success data
    then accepted [] (resultsShown (resultsHtml numberToString data) st)
    else resultsShown (resultsHtml numberToString data) st.
Proof.
  unfold displayResults, resultsHtml. rewrite !exec_bind.
  rewrite !fold_left_html.
  destruct (success data).
  - rewrite exec_bind, refresh_exec. reflexivity.
  - reflexivity.
Qed.

Lemma renderResult_failure {number : Type} (numberToString : number -> string)
    (filename error : string) :
  occursIn (errorMessageDiv error) (renderResult numberToString (ItemFailure filename error)).
Proof.
  exists (JS.nl
    ++ "                <div class=" ++ JS.q "result-item error" ++ ">" ++ JS.nl
    ++ "                    <div class=" ++ JS.q "result-filename" ++ ">📄 " ++ filename
    ++ "</div>" ++ JS.nl
    ++ "                    "),
    (JS.nl ++ "                </div>" ++ JS.nl ++ "            ").
  unfold errorMessageDiv, renderResult. rewrite !append_assoc. reflexivity.
Qed.

Lemma renderResult_success {number : Type} (numberToString : number -> string)
    (filename : string) (total_test_cases coverage_percentage : number)
    (worksheet_name sheet_url : string) :
  occursIn (worksheetSpan (JS.substring worksheet_name 0 20 ++ "..."))
    (renderResult numberToString
       (ItemSuccess filename total_test_cases coverage_percentage worksheet_name sheet_url)).
Proof.
  exists (JS.nl
    ++ "                <div class=" ++ JS.q "result-item" ++ ">" ++ JS.nl
    ++ "                    <div class=" ++ JS.q "result-filename" ++ ">📄 " ++ filename
    ++ "</div>" ++ JS.nl
    ++ "                    <div class=" ++ JS.q "result-stats" ++ ">" ++ JS.nl
    ++ "                        <div class=" ++ JS.q "stat-item" ++ ">" ++ JS.nl
    ++ "                            <span class=" ++ JS.q "stat-label"
    ++ ">Test Cases</span>" ++ JS.nl
    ++ "                            <span class=" ++ JS.q "stat-value" ++ ">"
    ++ numberToString total_test_cases ++ "</span>" ++ JS.nl
    ++ "                        </div>" ++ JS.nl
    ++ "                        <div class=" ++ JS.q "stat-item" ++ ">" ++ JS.nl
    ++ "                            <span class=" ++ JS.q "stat-label"
    ++ ">Coverage</span>" ++ JS.nl
    ++ "                            <span class=" ++ JS.q "stat-value" ++ ">"
    ++ numberToString coverage_percentage ++ "%</span>" ++ JS.nl
    ++ "                        </div>" ++ JS.nl
    ++ "                        <div class=" ++ JS.q "stat-item" ++ ">" ++ JS.nl
    ++ "                            <span class=" ++ JS.q "stat-label"
    ++ ">Worksheet</span>" ++ JS.nl
    ++ "                            "),
    (JS.nl
    ++ "                        </div>" ++ JS.nl
    ++ "                    </div>" ++ JS.nl
    ++ "                    <a href=" ++ JS.q sheet_url ++ " target=" ++ JS.q "_blank"
    ++ " class=" ++ JS.q "result-link" ++ ">" ++ JS.nl
    ++ "                        🔗 Mở Google Sheet" ++ JS.nl
    ++ "                    </a>" ++ JS.nl
    ++ "                </div>" ++ JS.nl
    ++ "            ").
  unfold worksheetSpan, renderResult. rewrite !append_assoc. reflexivity.
Qed.

(** Every item of the response has its block in the rendered results. *)
Lemma resultsHtml_item {number : Type} (numberToString : number -> string)
    (data : BatchResponse number) (result : ResultItem number) :
  In result (results data) ->
  occursIn (renderResult numberToString result) (resultsHtml numberToString data).
Proof.
  intro H. unfold resultsHtml. apply occursIn_append_r, occursIn_join.
  now apply in_map.
Qed.

Lemma displayResults_html {number : Type} (numberToString : number -> string)
    (data : BatchResponse number) (st : State) :
  resultsContent_innerHTML (exec (displayResults numberToString data) st)
  = resultsHtml numberToString data.
Proof.
  rewrite displayResults_exec. destruct (success data); reflexivity.
Qed.

(** C2.  [displayResults] leaves the selection list empty and the submit
    button disabled if and only if the [success] flag of the response is
    true.  When the flag is false the selection list is the one before the
    call, and the error message of every failed item is rendered in the
    results. *)
Theorem displayResults_clears_iff_success :
  forall (number : Type) (numberToString : number -> string)
         (data : BatchResponse number) (st : State),
    ((selectedFiles (exec (displayResults numberToString data) st) = []
      /\ generateBtn_disabled (exec (displayResults numberToString data) st) = true)
     <-> success data = true)
    /\ (success data = false ->
        selectedFiles (exec (displayResults numberToString data) st) = selectedFiles st
        /\ forall filename error,
             In (ItemFailure filename error) (results data) ->
             occursIn (errorMessageDiv error)
               (resultsContent_innerHTML (exec (displayResults numberToString data) st))).
Proof.
  intros number numberToString data st. split.
  - rewrite displayResults_exec. destruct (success data); simpl.
    + tauto.
    + split; [intros [_ H]; discriminate H | discriminate].
  - intro H. split.
    + rewrite displayResults_exec, H. reflexivity.
    + intros filename error Hin. rewrite displayResults_html.
      eapply occursIn_trans; [apply (renderResult_failure numberToString filename)|].
      apply resultsHtml_item, Hin.
Qed.

Lemma displayResults_clears_iff_success_witness :
  selectedFiles (exec (displayResults JS.natToString Sample.failedResponse) Sample.twoSelected)
  = selectedFiles Sample.twoSelected
  /\ occursIn (errorMessageDiv "parse failed")
       (resultsContent_innerHTML
          (exec (displayResults JS.natToString Sample.failedResponse) Sample.twoSelected))
  /\ selectedFiles (exec (displayResults JS.natToString Sample.okResponse) Sample.twoSelected)
     = []
  /\ generateBtn_disabled
       (exec (displayResults JS.natToString Sample.okResponse) Sample.twoSelected)
     = true.
Proof.
  pose proof (displayResults_clears_iff_success N JS.natToString
                Sample.failedResponse Sample.twoSelected) as [_ Hfailed].
  pose proof (displayResults_clears_iff_success N JS.natToString
                Sample.okResponse Sample.twoSelected) as [Hok _].
  destruct (Hfailed eq_refl) as [Hkept Hshown].
  destruct (proj2 Hok eq_refl) as [Hempty Hdisabled].
  split; [exact Hkept|].
  split; [apply (Hshown "b.pdf"); simpl; left; reflexivity|].
  split; [exact Hempty | exact Hdisabled].
Defined.

(** C10.  For every success item of the response, [displayResults] renders
    the first 20 characters (UTF-16 code units) of [worksheet_name] followed
    by "...", whatever the length of the name: a name of 20 characters or
    fewer is shown whole, with "..." appended all the same; of a longer one,
    exactly its first 20 characters are shown. *)
Theorem displayResults_worksheet_ellipsis :
  forall (number : Type) (numberToString : number -> string)
         (data : BatchResponse number) (st : State)
         (filename : string) (total_test_cases coverage_percentage : number)
         (worksheet_name sheet_url : string),
    In (ItemSuccess filename total_test_cases coverage_percentage worksheet_name sheet_url)
       (results data) ->
    JS.wellEncoded worksheet_name ->
    occursIn (worksheetSpan (JS.substring worksheet_name 0 20 ++ "..."))
      (resultsContent_innerHTML (exec (displayResults numberToString data) st))
    /\ JS.substring worksheet_name 0 20
       = JS.fromCodeUnits (firstn 20 (JS.codeUnits worksheet_name))
    /\ (JS.length worksheet_name <= 20 ->
        JS.substring worksheet_name 0 20 ++ "..." = worksheet_name ++ "...")
    /\ (20 <= JS.length worksheet_name ->
        List.length (firstn 20 (JS.codeUnits worksheet_name)) = 20).
Proof.
  intros number numberToString data st filename total_test_cases coverage_percentage
    worksheet_name sheet_url Hin Hname.
  split; [|split; [|split]].
  - rewrite displayResults_html.
    eapply occursIn_trans;
      [apply (renderResult_success numberToString filename total_test_cases
                coverage_percentage worksheet_name sheet_url)|].
    apply resultsHtml_item, Hin.
  - apply (substring_from_0 worksheet_name 20). lia.
  - intro H. rewrite substring_short by (try exact Hname; lia). reflexivity.
  - intro H. apply firstn_length_le. exact H.
Qed.

Lemma displayResults_worksheet_ellipsis_witness :
  occursIn (worksheetSpan "Đăng nhập hệ thống...")
    (resultsContent_innerHTML
       (exec (displayResults JS.natToString
                {| success := true; successful_files := 1%N; total_files := 1%N;
                   results := [ItemSuccess "a.pdf" 12%N 85%N "Đăng nhập hệ thống"
                                 "https://x"] |})
          Sample.twoSelected))
  /\ JS.substring "Sheet For A Very Long Name Indeed" 0 20
     = JS.fromCodeUnits (firstn 20 (JS.codeUnits "Sheet For A Very Long Name Indeed")).
Proof.
  assert (Hvi : JS.wellEncoded "Đăng nhập hệ thống") by (vm_compute; reflexivity).
  assert (Hen : JS.wellEncoded "Sheet For A Very Long Name Indeed")
    by (vm_compute; reflexivity).
  assert (Hlen : JS.length "Đăng nhập hệ thống" <= 20)
    by (vm_compute; repeat constructor).
  pose proof (displayResults_worksheet_ellipsis N JS.natToString
                {| success := true; successful_files := 1%N; total_files := 1%N;
                   results := [ItemSuccess "a.pdf" 12%N 85%N "Đăng nhập hệ thống"
                                 "https://x"] |}
                Sample.twoSelected "a.pdf" 12%N 85%N "Đăng nhập hệ thống" "https://x"
                (or_introl eq_refl) Hvi) as (Hshown & _ & Hshort & _).
  pose proof (displayResults_worksheet_ellipsis N JS.natToString
                {| success := true; successful_files := 1%N; total_files := 1%N;
                   results := [ItemSuccess "a.pdf" 12%N 85%N
                                 "Sheet For A Very Long Name Indeed" "https://x"] |}
                Sample.twoSelected "a.pdf" 12%N 85%N
                "Sheet For A Very Long Name Indeed" "https://x"
                (or_introl eq_refl) Hen) as (_ & Hfirst & _).
  split; [|exact Hfirst].
  rewrite (Hshort Hlen) in Hshown. exact Hshown.
Defined.

(** ** Generation orchestrator: [generateTestCases] *)

Lemma generateTestCases_send_run (st : State) :
  selectedFiles st <> [] ->
  generateTestCases_send st = (true, awaiting st).
Proof.
  intro H. unfold generateTestCases_send, bind, gets. cbv beta iota.
  destruct (selectedFiles st) as [|f l] eqn:E; [contradiction|].
  unfold awaiting. rewrite E. reflexivity.
Qed.

Lemma onError_exec (error : Error) (st : State) :
  exec (onError error) st
  = set_generateBtn_disabled false
      (set_alerts (alerts st ++ [errorAlert error])%list
         (set_progressSection_display "none" st)).
Proof. reflexivity. Qed.

Lemma generateTestCases_settle_throws {number : Type}
    (network : Settled (Response number)) (error : Error) (st : State) :
  requestThrows network error ->
  eval (generateTestCases_settle network) st = None
  /\ progressSection_display (exec (generateTestCases_settle network) st) = "none"
  /\ alerts (exec (generateTestCases_settle network) st) = (alerts st ++ [errorAlert error])%list
  /\ generateBtn_disabled (exec (generateTestCases_settle network) st) = false
  /\ selectedFiles (exec (generateTestCases_settle network) st) = selectedFiles st.
Proof.
  intros [->|(response & -> & Hjson)].
  - repeat split.
  - unfold generateTestCases_settle. rewrite eval_bind, exec_bind, Hjson.
    repeat split.
Qed.

(** C3.  For every submission (the selection list is not empty) in which the
    network request throws, [generateTestCases] hides the progress panel,
    alerts the message of the error, re-enables the submit control, leaves
    the selection list as it was, and schedules no display of results. *)
Theorem generateTestCases_request_throws :
  forall (number : Type) (network : Settled (Response number)) (error : Error) (st : State),
    selectedFiles st <> [] ->
    requestThrows network error ->
    progressSection_display (exec (generateTestCases network) st) = "none"
    /\ alerts (exec (generateTestCases network) st) = (alerts st ++ [errorAlert error])%list
    /\ occursIn (message error) (errorAlert error)
    /\ generateBtn_disabled (exec (generateTestCases network) st) = false
    /\ selectedFiles (exec (generateTestCases network) st) = selectedFiles st
    /\ eval (generateTestCases network) st = None.
Proof.
  intros number network error st Hne Hthrows.
  assert (Hsent : eval generateTestCases_send st = true)
    by (unfold eval; now rewrite generateTestCases_send_run).
  assert (Hawait : exec generateTestCases_send st = awaiting st)
    by (unfold exec; now rewrite generateTestCases_send_run).
  unfold generateTestCases. rewrite exec_bind, eval_bind, Hsent, Hawait.
  destruct (generateTestCases_settle_throws network error (awaiting st) Hthrows)
    as (Hnone & Hpanel & Halert & Hbtn & Hfiles).
  repeat split; try assumption.
  apply occursIn_append_r. exists "", "". now rewrite append_nil_r.
Qed.

Lemma generateTestCases_request_throws_witness :
  progressSection_display (exec (generateTestCases Sample.offline) Sample.twoSelected) = "none"
  /\ alerts (exec (generateTestCases Sample.offline) Sample.twoSelected)
     = (alerts Sample.twoSelected ++ [errorAlert {| message := "Failed to fetch" |}])%list
  /\ occursIn "Failed to fetch" (errorAlert {| message := "Failed to fetch" |})
  /\ generateBtn_disabled (exec (generateTestCases Sample.offline) Sample.twoSelected) = false
  /\ selectedFiles (exec (generateTestCases Sample.offline) Sample.twoSelected)
     = selectedFiles Sample.twoSelected
  /\ eval (generateTestCases Sample.offline) Sample.twoSelected = None.
Proof.
  assert (Hne : selectedFiles Sample.twoSelected <> []) by (vm_compute; discriminate).
  assert (Hthrows : requestThrows Sample.offline {| message := "Failed to fetch" |})
    by (left; reflexivity).
  exact (generateTestCases_request_throws N Sample.offline
           {| message := "Failed to fetch" |} Sample.twoSelected Hne Hthrows).
Defined.

(** ** The invariant of the selection list over a run of the page *)

Lemma splice_one {A : Type} (arr : list A) (start : Z) :
  fst (JS.splice arr start 1) = arr
  \/ exists at_, fst (JS.splice arr start 1) = (firstn at_ arr ++ skipn (S at_) arr)%list.
Proof.
  destruct (Z.ltb_spec start 0) as [Hneg|Hpos].
  - right. eexists. apply splice_negative. exact Hneg.
  - destruct (Z.leb_spec (Z.of_nat (List.length arr)) start) as [Hout|Hin].
    + left. now apply splice_beyond.
    + right. exists (Z.to_nat start). unfold JS.splice. cbn [fst].
      assert (Hs : (start <? 0)%Z = false) by (apply Z.ltb_ge; lia). rewrite Hs.
      rewrite Z.min_l by lia.
      replace (Z.min (Z.max 1 0) (Z.of_nat (List.length arr) - start)) with 1%Z by lia.
      replace (Z.to_nat (start + 1)) with (S (Z.to_nat start)) by lia.
      reflexivity.
Qed.

Lemma removeFile_unique (index : Z) (st : State) :
  uniqueNames st -> uniqueNames (exec (removeFile index) st).
Proof.
  unfold uniqueNames. intro H. rewrite removeFile_exec, accepted_selectedFiles.
  destruct (splice_one (selectedFiles st) index) as [->|[at_ ->]]; [exact H|].
  rewrite map_app, <- firstn_map, <- skipn_map. now apply NoDup_remove_at.
Qed.

Lemma generateTestCases_keeps_files {number : Type}
    (network : Settled (Response number)) (st : State) :
  selectedFiles (exec (generateTestCases network) st) = selectedFiles st.
Proof.
  unfold generateTestCases. rewrite exec_bind.
  destruct (selectedFiles st) as [|f l] eqn:E.
  - unfold generateTestCases_send, eval, exec, bind, gets. cbv beta iota.
    rewrite E. simpl. exact E.
  - assert (Hne : selectedFiles st <> []) by (rewrite E; discriminate).
    unfold eval, exec. rewrite (generateTestCases_send_run st Hne). cbn [fst snd].
    rewrite <- E.
    destruct network as [response|error]; [|reflexivity].
    unfold generateTestCases_settle, bind, updateProgress, modify. cbv beta iota.
    destruct (json response); reflexivity.
Qed.

Lemma submit_unique {number : Type} (numberToString : number -> string)
    (network : Settled (Response number)) (st : State) :
  uniqueNames st -> uniqueNames (exec (submit numberToString network) st).
Proof.
  unfold uniqueNames. intro H. unfold submit. rewrite exec_bind.
  destruct (eval (generateTestCases network) st) as [data|].
  - rewrite displayResults_exec. destruct (success data); simpl.
    + constructor.
    + now rewrite generateTestCases_keeps_files.
  - change (exec (ret tt) ?s) with s. now rewrite generateTestCases_keeps_files.
Qed.

(** Whatever the user does and however the requests go, no two entries of the
    selection list have the same name. *)
Lemma run_unique {number : Type} (numberToString : number -> string)
    (events : list (Event number)) (st : State) :
  uniqueNames st -> uniqueNames (exec (run numberToString events) st).
Proof.
  apply forEach_invariant. intros [files|index|network] st' H; simpl.
  - now apply addFiles_unique.
  - now apply removeFile_unique.
  - now apply submit_unique.
Qed.

(** * Further properties *)

(** ** Removing an entry *)

Lemma splice_in_range {A : Type} (arr : list A) (start : Z) :
  (0 <= start < Z.of_nat (List.length arr))%Z ->
  fst (JS.splice arr start 1)
  = (firstn (Z.to_nat start) arr ++ skipn (S (Z.to_nat start)) arr)%list.
Proof.
  intro H. unfold JS.splice. cbn [fst].
  assert (Hs : (start <? 0)%Z = false) by (apply Z.ltb_ge; lia). rewrite Hs.
  rewrite Z.min_l by lia.
  replace (Z.min (Z.max 1 0) (Z.of_nat (List.length arr) - start)) with 1%Z by lia.
  replace (Z.to_nat (start + 1)) with (S (Z.to_nat start)) by lia.
  reflexivity.
Qed.

Lemma nth_error_remove_at_before {A : Type} (arr : list A) (i j : nat) :
  j < i -> nth_error (firstn i arr ++ skipn (S i) arr) j = nth_error arr j.
Proof.
  revert i j. induction arr as [|a arr IH]; intros i j H.
  - now rewrite firstn_nil, skipn_nil.
  - destruct i as [|i]; [lia|]. destruct j as [|j]; simpl.
    + reflexivity.
    + apply IH. lia.
Qed.

Lemma nth_error_remove_at_after {A : Type} (arr : list A) (i j : nat) :
  i <= j -> nth_error (firstn i arr ++ skipn (S i) arr) j = nth_error arr (S j).
Proof.
  revert i j. induction arr as [|a arr IH]; intros i j H.
  - rewrite firstn_nil, skipn_nil. simpl. now destruct j.
  - destruct i as [|i]; simpl.
    + reflexivity.
    + destruct j as [|j]; [lia|]. simpl. apply IH. lia.
Qed.

Lemma accepted_consistent (selected : list File) (st : State) :
  consistent (accepted selected st).
Proof. split; reflexivity. Qed.

(** X1.  For an index within the list, [removeFile] removes the entry at that
    index and no other: the list gets one entry shorter, the entries before
    the index keep their place, the entries after it move up by one, nothing
    is alerted, and the rendered list and the button follow. *)
Theorem removeFile_in_range :
  forall (index : Z) (st : State),
    (0 <= index < Z.of_nat (List.length (selectedFiles st)))%Z ->
    S (List.length (selectedFiles (exec (removeFile index) st)))
    = List.length (selectedFiles st)
    /\ (forall j, j < Z.to_nat index ->
          nth_error (selectedFiles (exec (removeFile index) st)) j
          = nth_error (selectedFiles st) j)
    /\ (forall j, Z.to_nat index <= j ->
          nth_error (selectedFiles (exec (removeFile index) st)) j
          = nth_error (selectedFiles st) (S j))
    /\ alerts (exec (removeFile index) st) = alerts st
    /\ consistent (exec (removeFile index) st).
Proof.
  intros index st H.
  rewrite removeFile_exec, accepted_selectedFiles, accepted_alerts.
  rewrite (splice_in_range (selectedFiles st) index H).
  split; [apply length_remove_at; lia|].
  split; [intros j Hj; now apply nth_error_remove_at_before|].
  split; [intros j Hj; now apply nth_error_remove_at_after|].
  split; [reflexivity | apply accepted_consistent].
Qed.

Lemma removeFile_in_range_witness :
  S (List.length (selectedFiles (exec (removeFile 0) Sample.twoSelected)))
  = List.length (selectedFiles Sample.twoSelected)
  /\ nth_error (selectedFiles (exec (removeFile 0) Sample.twoSelected)) 0
     = nth_error (selectedFiles Sample.twoSelected) 1.
Proof.
  assert (H : (0 <= 0 < Z.of_nat (List.length (selectedFiles Sample.twoSelected)))%Z)
    by (vm_compute; split; [discriminate | reflexivity]).
  pose proof (removeFile_in_range 0 Sample.twoSelected H) as (Hlen & _ & Hafter & _).
  split; [exact Hlen | exact (Hafter 0%nat (le_n 0))].
Defined.

(** ** Adding and removing *)

Lemma filter_acceptable (file : File) :
  acceptable file ->
  filter isPdf [file] = [file] /\ filter isOversized (filter isPdf [file]) = [].
Proof.
  intros [Hpdf Hsize].
  assert (F : filter isPdf [file] = [file]) by (simpl; now rewrite Hpdf).
  split; [exact F|]. rewrite F. simpl. unfold isOversized.
  assert (Hlt : (16 * 1024 * 1024 <? size file)%N = false) by (apply N.ltb_ge; exact Hsize).
  now rewrite Hlt.
Qed.

Lemma addFiles_single (file : File) (st : State) :
  acceptable file ->
  exec (addFiles [file]) st = accepted (appendNew (selectedFiles st) file) st.
Proof.
  intro H. destruct (filter_acceptable file H) as [F O].
  rewrite (addFiles_accepted [file] st); [| rewrite F; discriminate | exact O].
  now rewrite F.
Qed.

Lemma remove_last {A : Type} (l : list A) (a : A) :
  (firstn (List.length l) (l ++ [a]) ++ skipn (S (List.length l)) (l ++ [a]))%list = l.
Proof.
  rewrite firstn_app, Nat.sub_diag, firstn_all, firstn_0, app_nil_r.
  rewrite skipn_all2 by (rewrite length_app; simpl; lia).
  apply app_nil_r.
Qed.

(** X2.  Adding and removing undo each other.  When a file passes both filters
    and its name is not in the list, [addFiles] appends it at the end, and
    [removeFile] at that index, or at -1, gives back the list from before. *)
Theorem addFiles_then_removeFile :
  forall (file : File) (st : State),
    acceptable file ->
    ~ In (name file) (map name (selectedFiles st)) ->
    selectedFiles (exec (addFiles [file]) st) = (selectedFiles st ++ [file])%list
    /\ selectedFiles
         (exec (removeFile (Z.of_nat (List.length (selectedFiles st))))
            (exec (addFiles [file]) st))
       = selectedFiles st
    /\ selectedFiles (exec (removeFile (-1)) (exec (addFiles [file]) st))
       = selectedFiles st.
Proof.
  intros file st Hok Hnew.
  assert (Hadd : selectedFiles (exec (addFiles [file]) st)
                 = (selectedFiles st ++ [file])%list).
  { rewrite (addFiles_single file st Hok), accepted_selectedFiles.
    now apply appendNew_absent. }
  split; [exact Hadd|]. split.
  - rewrite removeFile_exec, accepted_selectedFiles, Hadd.
    rewrite splice_in_range by (rewrite length_app; simpl; lia).
    rewrite Nat2Z.id. apply remove_last.
  - rewrite removeFile_exec, accepted_selectedFiles, Hadd.
    rewrite splice_negative by lia.
    replace (Z.to_nat (Z.max (Z.of_nat (List.length (selectedFiles st ++ [file])) + -1) 0))
      with (List.length (selectedFiles st)) by (rewrite length_app; simpl; lia).
    apply remove_last.
Qed.

Lemma addFiles_then_removeFile_witness :
  selectedFiles (exec (addFiles [Sample.a_pdf]) Sample.page) = [Sample.a_pdf]
  /\ selectedFiles (exec (removeFile (-1)) (exec (addFiles [Sample.a_pdf]) Sample.page)) = [].
Proof.
  assert (Hok : acceptable Sample.a_pdf)
    by (split; [reflexivity | vm_compute; discriminate]).
  assert (Hnew : ~ In (name Sample.a_pdf) (map name (selectedFiles Sample.page)))
    by (simpl; tauto).
  pose proof (addFiles_then_removeFile Sample.a_pdf Sample.page Hok Hnew)
    as (Hadd & _ & Hpop).
  split; [exact Hadd | exact Hpop].
Defined.

(** X3.  [addFiles] is idempotent on the selection list: calling it a second
    time with the same batch leaves the list that the first call gave. *)
Theorem addFiles_twice :
  forall (files : list File) (st : State),
    selectedFiles (exec (addFiles files) (exec (addFiles files) st))
    = selectedFiles (exec (addFiles files) st).
Proof.
  intros files st.
  destruct (addFiles_cases files st) as [[E H]|[(first & rest & E & H)|(Hne & E & H)]].
  - rewrite H, (addFiles_no_pdf files _ E). reflexivity.
  - rewrite H, (addFiles_oversized files _ first rest E). reflexivity.
  - rewrite H, (addFiles_accepted files _ Hne E), !accepted_selectedFiles.
    apply fold_appendNew_present. intros file Hf.
    now apply fold_appendNew_listed.
Qed.

(** ** Which file is kept under a name *)

Lemma find_app {A : Type} (p : A -> bool) (l l' : list A) :
  find p (l ++ l')
  = match find p l with
    | Some x => Some x
    | None => find p l'
    end.
Proof.
  induction l as [|a l IH]; simpl; [reflexivity|].
  destruct (p a); [reflexivity | exact IH].
Qed.

Lemma findByName_appendNew (n : string) (selected : list File) (file : File) :
  findByName n (appendNew selected file)
  = match findByName n selected with
    | Some f => Some f
    | None => findByName n [file]
    end.
Proof.
  unfold findByName, appendNew.
  destruct (find (fun f => (name f =? name file)%string) selected) as [g|] eqn:E.
  - destruct (find (fun f => (name f =? n)%string) selected) as [f|] eqn:F;
      [reflexivity|].
    simpl. destruct (String.eqb_spec (name file) n) as [<-|_]; [|reflexivity].
    rewrite E in F. discriminate F.
  - apply find_app.
Qed.

Lemma findByName_fold_appendNew (n : string) (files selected : list File) :
  findByName n (fold_left appendNew files selected)
  = match findByName n selected with
    | Some f => Some f
    | None => findByName n files
    end.
Proof.
  revert selected. induction files as [|file files IH]; intro selected; simpl.
  - now destruct (findByName n selected).
  - rewrite IH, findByName_appendNew.
    destruct (findByName n selected) as [f|]; [reflexivity|].
    unfold findByName. simpl.
    destruct (name file =? n)%string; reflexivity.
Qed.

(** X4.  Which file the list holds under a name after a call of [addFiles]
    that issues no warning: the entry that was there before, if any; else the
    first PDF of that name in the batch; and the entries from before stay in
    front, in their order. *)
Theorem addFiles_first_of_a_name :
  forall (files : list File) (st : State) (n : string),
    alerts (exec (addFiles files) st) = alerts st ->
    findByName n (selectedFiles (exec (addFiles files) st))
    = match findByName n (selectedFiles st) with
      | Some f => Some f
      | None => findByName n (filter isPdf files)
      end
    /\ exists added,
         selectedFiles (exec (addFiles files) st) = (selectedFiles st ++ added)%list.
Proof.
  intros files st n Hquiet.
  destruct (addFiles_cases files st) as [[_ H]|[(first & rest & _ & H)|(_ & _ & H)]].
  - rewrite H in Hquiet. simpl in Hquiet.
    apply (f_equal (@List.length string)) in Hquiet.
    rewrite length_app in Hquiet. simpl in Hquiet. lia.
  - rewrite H in Hquiet. simpl in Hquiet.
    apply (f_equal (@List.length string)) in Hquiet.
    rewrite length_app in Hquiet. simpl in Hquiet. lia.
  - rewrite H, accepted_selectedFiles. split.
    + apply findByName_fold_appendNew.
    + destruct (fold_appendNew_extends (filter isPdf files) (selectedFiles st))
        as (added & E & _).
      now exists added.
Qed.

Lemma addFiles_first_of_a_name_witness :
  findByName "a.pdf"
    (selectedFiles
       (exec (addFiles [Sample.a_pdf; {| name := "a.pdf"; size := 7; type := "" |}])
          Sample.page))
  = Some Sample.a_pdf.
Proof.
  assert (Hquiet :
            alerts (exec (addFiles [Sample.a_pdf; {| name := "a.pdf"; size := 7; type := "" |}])
                      Sample.page)
            = alerts Sample.page) by reflexivity.
  pose proof (addFiles_first_of_a_name
                [Sample.a_pdf; {| name := "a.pdf"; size := 7; type := "" |}]
                Sample.page "a.pdf" Hquiet) as [H _].
  exact H.
Defined.

(** ** One submission *)

Lemma generateTestCases_idle {number : Type} (network : Settled (Response number))
    (st : State) :
  selectedFiles st = [] -> generateTestCases network st = (None, st).
Proof.
  intro H. unfold generateTestCases, generateTestCases_send, bind, gets.
  cbv beta iota. rewrite H. reflexivity.
Qed.

Lemma generateTestCases_run {number : Type} (network : Settled (Response number))
    (st : State) :
  selectedFiles st <> [] ->
  generateTestCases network st = generateTestCases_settle network (awaiting st).
Proof.
  intro H. unfold generateTestCases, bind.
  rewrite (generateTestCases_send_run st H). reflexivity.
Qed.

Lemma generateTestCases_settle_rejected {number : Type} (error : Error) (st : State) :
  generateTestCases_settle (number := number) (Rejected error) st = (None, failed error st).
Proof. reflexivity. Qed.

Lemma generateTestCases_settle_not_json {number : Type} (response : Response number)
    (error : Error) (st : State) :
  json response = Rejected error ->
  generateTestCases_settle (Fulfilled response) st
  = (None,
     failed error
       (set_progressText_textContent "Đang extract text từ PDF..."
          (set_progressFill_width "40%" st))).
Proof.
  intro H. unfold generateTestCases_settle, bind, updateProgress.
  cbv beta iota. rewrite H. reflexivity.
Qed.

Lemma generateTestCases_settle_json {number : Type} (response : Response number)
    (data : BatchResponse number) (st : State) :
  json response = Fulfilled data ->
  generateTestCases_settle (Fulfilled response) st
  = (Some data,
     set_progressText_textContent "Hoàn thành!" (set_progressFill_width "100%" st)).
Proof.
  intro H. unfold generateTestCases_settle, bind, updateProgress.
  cbv beta iota. rewrite H. reflexivity.
Qed.

(** X5.  The entry guard: with an empty selection list [generateTestCases]
    does nothing at all, however the network would behave: the state is the
    one before, no request is sent, nothing is alerted and no display of
    results is scheduled. *)
Theorem generateTestCases_empty_selection :
  forall (number : Type) (network : Settled (Response number)) (st : State),
    selectedFiles st = [] ->
    exec (generateTestCases network) st = st
    /\ eval (generateTestCases network) st = None.
Proof.
  intros number network st H. unfold exec, eval.
  rewrite (generateTestCases_idle network st H). split; reflexivity.
Qed.

Lemma generateTestCases_empty_selection_witness :
  exec (generateTestCases Sample.offline) Sample.page = Sample.page
  /\ eval (generateTestCases Sample.offline) Sample.page = None.
Proof.
  exact (generateTestCases_empty_selection N Sample.offline Sample.page eq_refl).
Defined.

(** X6.  The success path of [generateTestCases]: with a selection that is
    not empty and a response whose body parses, exactly one request is sent,
    carrying the selection list as it is and the value of the target count
    input; the data is handed over for display; the progress is at 100% in
    the shown progress panel, the results panel is hidden, the submit button
    stays disabled, and neither the selection list nor the alerts change. *)
Theorem generateTestCases_response_received :
  forall (number : Type) (response : Response number) (data : BatchResponse number)
         (st : State),
    selectedFiles st <> [] ->
    json response = Fulfilled data ->
    eval (generateTestCases (Fulfilled response)) st = Some data
    /\ requests (exec (generateTestCases (Fulfilled response)) st)
       = (requests st
            ++ [{| form_files := selectedFiles st;
                   form_target_count := targetCountInput_value st |}])%list
    /\ progressFill_width (exec (generateTestCases (Fulfilled response)) st) = "100%"
    /\ progressSection_display (exec (generateTestCases (Fulfilled response)) st) = "block"
    /\ resultsSection_display (exec (generateTestCases (Fulfilled response)) st) = "none"
    /\ generateBtn_disabled (exec (generateTestCases (Fulfilled response)) st) = true
    /\ selectedFiles (exec (generateTestCases (Fulfilled response)) st) = selectedFiles st
    /\ alerts (exec (generateTestCases (Fulfilled response)) st) = alerts st.
Proof.
  intros number response data st Hne Hjson. unfold exec, eval.
  rewrite (generateTestCases_run (Fulfilled response) st Hne).
  rewrite (generateTestCases_settle_json response data _ Hjson).
  repeat split.
Qed.

Lemma generateTestCases_response_received_witness :
  eval (generateTestCases (Fulfilled {| json := Fulfilled Sample.okResponse |}))
    Sample.twoSelected
  = Some Sample.okResponse
  /\ requests
       (exec (generateTestCases (Fulfilled {| json := Fulfilled Sample.okResponse |}))
          Sample.twoSelected)
     = [{| form_files := [Sample.a_pdf; Sample.b_pdf]; form_target_count := "10" |}].
Proof.
  assert (Hne : selectedFiles Sample.twoSelected <> []) by (vm_compute; discriminate).
  pose proof (generateTestCases_response_received N
                {| json := Fulfilled Sample.okResponse |} Sample.okResponse
                Sample.twoSelected Hne eq_refl) as (Hdata & Hrequest & _).
  split; [exact Hdata | exact Hrequest].
Defined.

(** X7.  A whole submission that gets a response: after [generateTestCases]
    and the deferred [displayResults], the progress panel is hidden and the
    results panel shown, the results hold the blocks of the response, the
    selection list is emptied exactly when the batch flag is true and is the
    one before otherwise, and the submit button is disabled exactly when the
    batch flag is true. *)
Theorem submit_response_displayed :
  forall (number : Type) (numberToString : number -> string)
         (response : Response number) (data : BatchResponse number) (st : State),
    selectedFiles st <> [] ->
    json response = Fulfilled data ->
    progressSection_display (exec (submit numberToString (Fulfilled response)) st) = "none"
    /\ resultsSection_display (exec (submit numberToString (Fulfilled response)) st) = "block"
    /\ resultsContent_innerHTML (exec (submit numberToString (Fulfilled response)) st)
       = resultsHtml numberToString data
    /\ selectedFiles (exec (submit numberToString (Fulfilled response)) st)
       = (if success data then [] else selectedFiles st)
    /\ generateBtn_disabled (exec (submit numberToString (Fulfilled response)) st)
       = success data.
Proof.
  intros number numberToString response data st Hne Hjson.
  unfold submit. rewrite exec_bind. unfold exec at 2 4 6 8 10, eval.
  rewrite (generateTestCases_run (Fulfilled response) st Hne).
  rewrite (generateTestCases_settle_json response data _ Hjson). cbn [fst snd].
  rewrite displayResults_exec. destruct (success data); repeat split.
Qed.

Lemma submit_response_displayed_witness :
  selectedFiles
    (exec (submit JS.natToString (Fulfilled {| json := Fulfilled Sample.okResponse |}))
       Sample.twoSelected)
  = []
  /\ selectedFiles
       (exec (submit JS.natToString (Fulfilled {| json := Fulfilled Sample.failedResponse |}))
          Sample.twoSelected)
     = selectedFiles Sample.twoSelected.
Proof.
  assert (Hne : selectedFiles Sample.twoSelected <> []) by (vm_compute; discriminate).
  pose proof (submit_response_displayed N JS.natToString
                {| json := Fulfilled Sample.okResponse |} Sample.okResponse
                Sample.twoSelected Hne eq_refl) as (_ & _ & _ & Hok & _).
  pose proof (submit_response_displayed N JS.natToString
                {| json := Fulfilled Sample.failedResponse |} Sample.failedResponse
                Sample.twoSelected Hne eq_refl) as (_ & _ & _ & Hfailed & _).
  split; [exact Hok | exact Hfailed].
Defined.

(** ** What every run of the page keeps *)

Lemma not_oversized (files : list File) :
  filter isOversized files = [] ->
  Forall (fun file => (size file <= 16 * 1024 * 1024)%N) files.
Proof.
  induction files as [|file files IH]; simpl; intro H; [constructor|].
  destruct (isOversized file) eqn:E; [discriminate H|].
  constructor; [|now apply IH].
  unfold isOversized in E. now apply N.ltb_ge in E.
Qed.

Lemma Forall_remove_at {A : Type} (P : A -> Prop) (arr : list A) (i : nat) :
  Forall P arr -> Forall P (firstn i arr ++ skipn (S i) arr).
Proof.
  rewrite !Forall_forall. intros H x Hx. apply H. eapply In_remove_at; exact Hx.
Qed.

Lemma addFiles_acceptable (files : list File) (st : State) :
  allAcceptable st -> allAcceptable (exec (addFiles files) st).
Proof.
  unfold allAcceptable. intro H.
  destruct (addFiles_cases files st) as [[_ E]|[(first & rest & _ & E)|(_ & O & E)]];
    rewrite E; [exact H | exact H |].
  rewrite accepted_selectedFiles.
  destruct (fold_appendNew_extends (filter isPdf files) (selectedFiles st))
    as (added & -> & Hadded).
  apply Forall_app. split; [exact H|].
  apply Forall_forall. intros file Hf. apply Hadded in Hf.
  pose proof (not_oversized _ O) as Hsmall. rewrite Forall_forall in Hsmall.
  split; [|now apply Hsmall].
  apply filter_In in Hf. tauto.
Qed.

Lemma addFiles_requests (files : list File) (st : State) :
  requests (exec (addFiles files) st) = requests st.
Proof.
  destruct (addFiles_cases files st) as [[_ E]|[(first & rest & _ & E)|(_ & _ & E)]];
    now rewrite E.
Qed.

Lemma addFiles_wellFormed (files : list File) (st : State) :
  wellFormed st -> wellFormed (exec (addFiles files) st).
Proof.
  intros (Hu & Ha & Hr). split; [|split].
  - now apply addFiles_unique.
  - now apply addFiles_acceptable.
  - now rewrite addFiles_requests.
Qed.

Lemma removeFile_wellFormed (index : Z) (st : State) :
  wellFormed st -> wellFormed (exec (removeFile index) st).
Proof.
  intros (Hu & Ha & Hr). split; [|split].
  - now apply removeFile_unique.
  - unfold allAcceptable in *. rewrite removeFile_exec, accepted_selectedFiles.
    destruct (splice_one (selectedFiles st) index) as [->|[at_ ->]]; [exact Ha|].
    now apply Forall_remove_at.
  - now rewrite removeFile_exec.
Qed.

Lemma generateTestCases_send_wellFormed (st : State) :
  wellFormed st -> wellFormed (exec generateTestCases_send st).
Proof.
  intros (Hu & Ha & Hr).
  destruct (selectedFiles st) as [|f l] eqn:E.
  - assert (Hidle : exec generateTestCases_send st = st).
    { unfold exec, generateTestCases_send, bind, gets. cbv beta iota.
      rewrite E. reflexivity. }
    rewrite Hidle. repeat split; assumption.
  - assert (Hne : selectedFiles st <> []) by (rewrite E; discriminate).
    unfold exec. rewrite (generateTestCases_send_run st Hne). cbn [snd].
    split; [exact Hu|]. split; [exact Ha|].
    unfold awaiting. cbn [requests set_requests]. apply Forall_app.
    split; [exact Hr|]. constructor; [|constructor].
    repeat split; assumption.
Qed.

Lemma generateTestCases_settle_wellFormed {number : Type}
    (network : Settled (Response number)) (st : State) :
  wellFormed st -> wellFormed (exec (generateTestCases_settle network) st).
Proof.
  intro H. unfold exec. destruct network as [response|error].
  - destruct (json response) as [data|error] eqn:J.
    + rewrite (generateTestCases_settle_json response data st J). exact H.
    + rewrite (generateTestCases_settle_not_json response error st J). exact H.
  - exact H.
Qed.

Lemma displayResults_wellFormed {number : Type} (numberToString : number -> string)
    (data : BatchResponse number) (st : State) :
  wellFormed st -> wellFormed (exec (displayResults numberToString data) st).
Proof.
  intros (Hu & Ha & Hr). rewrite displayResults_exec.
  destruct (success data).
  - split; [|split].
    + unfold uniqueNames. rewrite accepted_selectedFiles. constructor.
    + unfold allAcceptable. rewrite accepted_selectedFiles. constructor.
    + exact Hr.
  - repeat split; assumption.
Qed.

Lemma dispatchDrag_app (target : DragTarget) (kind : DragKind) (e : DomEvent) (p : Page) :
  app (snd (dispatchDrag target kind e p)) = app p
  \/ (target = OnUploadArea /\ kind = Drop
      /\ app (snd (dispatchDrag target kind e p))
         = exec (addFiles (event_files e)) (app p)).
Proof.
  unfold dispatchDrag.
  destruct target; [destruct kind| |]; simpl;
    try (left; try destruct (propagationStopped e); reflexivity).
  right. repeat split. destruct (propagationStopped e); reflexivity.
Qed.

Lemma loadConfig_app {number : Type} (numberToString : number -> string)
    (network : Settled (ConfigApi.Response number)) (p : Page) :
  app (loadConfig numberToString network p) = app p.
Proof.
  unfold loadConfig. destruct network as [response|error]; [|reflexivity].
  destruct (ConfigApi.json response) as [data|error]; [|reflexivity].
  destruct (ConfigApi.success data); reflexivity.
Qed.

Lemma pageHandle_wellFormed {number : Type} (numberToString : number -> string)
    (event : PageEvent number) (p : Page) :
  wellFormed (app p) -> wellFormed (app (pageHandle numberToString event p)).
Proof.
  intro H. destruct event as [target kind files|files| |index| |value|network|data|network];
    cbn [pageHandle].
  - destruct (dispatchDrag_app target kind (freshEvent files) p) as [->|(_ & _ & ->)];
      [exact H | now apply addFiles_wellFormed].
  - now apply addFiles_wellFormed.
  - exact H.
  - now apply removeFile_wellFormed.
  - destruct (generateBtn_disabled (app p)); [exact H|].
    now apply generateTestCases_send_wellFormed.
  - exact H.
  - now apply generateTestCases_settle_wellFormed.
  - now apply displayResults_wellFormed.
  - now rewrite loadConfig_app.
Qed.

Lemma pageRun_wellFormed {number : Type} (numberToString : number -> string)
    (events : list (PageEvent number)) (p : Page) :
  wellFormed (app p) -> wellFormed (app (pageRun numberToString events p)).
Proof.
  unfold pageRun. revert p. induction events as [|event events IH]; intros p H; simpl.
  - exact H.
  - apply IH. now apply pageHandle_wellFormed.
Qed.

Lemma wellFormed_start (st : State) :
  selectedFiles st = [] -> requests st = [] -> wellFormed st.
Proof.
  intros Hs Hr. unfold wellFormed, uniqueNames, allAcceptable. rewrite Hs, Hr.
  repeat split; constructor.
Qed.

(** X8.  From a page with nothing selected and nothing sent, whatever the
    user does (drags, drops, file choices, removals, submissions, edits) and
    whenever promises settle and timers fire, every entry of the selection
    list is a PDF by type or by name of at most 16 MiB, and no two entries
    have the same name. *)
Theorem pageRun_selection_acceptable :
  forall (number : Type) (numberToString : number -> string)
         (events : list (PageEvent number)) (p : Page),
    selectedFiles (app p) = [] ->
    requests (app p) = [] ->
    uniqueNames (app (pageRun numberToString events p))
    /\ forall file,
         In file (selectedFiles (app (pageRun numberToString events p))) ->
         (type file = "application/pdf" \/ exists stem, name file = stem ++ ".pdf")
         /\ (size file <= 16 * 1024 * 1024)%N.
Proof.
  intros number numberToString events p Hs Hr.
  destruct (pageRun_wellFormed numberToString events p (wellFormed_start _ Hs Hr))
    as (Hu & Ha & _).
  split; [exact Hu|].
  intros file Hin. unfold allAcceptable in Ha. rewrite Forall_forall in Ha.
  destruct (Ha file Hin) as [Hpdf Hsize]. split; [|exact Hsize].
  now apply isPdf_iff.
Qed.

Lemma pageRun_selection_acceptable_witness :
  uniqueNames
    (app (pageRun JS.natToString
            [DragEvent OnUploadArea Drop Sample.mixedBatch; ChangeFileInput [Sample.a_pdf];
             ClickGenerate; ClickRemove 0]
            samplePage)).
Proof.
  exact (proj1 (pageRun_selection_acceptable N JS.natToString
                  [DragEvent OnUploadArea Drop Sample.mixedBatch; ChangeFileInput [Sample.a_pdf];
                   ClickGenerate; ClickRemove 0]
                  samplePage eq_refl eq_refl)).
Defined.

(** X9.  From such a page, every request that is ever sent carries at least
    one file, files of pairwise different names, and only files that pass
    both filters of [addFiles]. *)
Theorem pageRun_requests_valid :
  forall (number : Type) (numberToString : number -> string)
         (events : list (PageEvent number)) (p : Page) (request : Request),
    selectedFiles (app p) = [] ->
    requests (app p) = [] ->
    In request (requests (app (pageRun numberToString events p))) ->
    form_files request <> []
    /\ NoDup (map name (form_files request))
    /\ Forall acceptable (form_files request).
Proof.
  intros number numberToString events p request Hs Hr Hin.
  destruct (pageRun_wellFormed numberToString events p (wellFormed_start _ Hs Hr))
    as (_ & _ & Hreq).
  rewrite Forall_forall in Hreq. exact (Hreq request Hin).
Qed.

Lemma pageRun_requests_valid_witness :
  form_files {| form_files := [Sample.a_pdf]; form_target_count := "10" |} <> []
  /\ NoDup (map name (form_files {| form_files := [Sample.a_pdf]; form_target_count := "10" |}))
  /\ Forall acceptable
       (form_files {| form_files := [Sample.a_pdf]; form_target_count := "10" |}).
Proof.
  assert (Hin : In {| form_files := [Sample.a_pdf]; form_target_count := "10" |}
                  (requests (app (pageRun JS.natToString
                                    [ChangeFileInput [Sample.a_pdf]; ClickGenerate]
                                    samplePage))))
    by (vm_compute; left; reflexivity).
  exact (pageRun_requests_valid N JS.natToString
           [ChangeFileInput [Sample.a_pdf]; ClickGenerate] samplePage
           {| form_files := [Sample.a_pdf]; form_target_count := "10" |}
           eq_refl eq_refl Hin).
Defined.

(** ** The button and the rendered list *)

Lemma addFiles_consistent (files : list File) (st : State) :
  consistent st -> consistent (exec (addFiles files) st).
Proof.
  intro H.
  destruct (addFiles_cases files st) as [[_ E]|[(first & rest & _ & E)|(_ & _ & E)]];
    rewrite E; [exact H | exact H | apply accepted_consistent].
Qed.

Lemma removeFile_consistent (index : Z) (st : State) :
  consistent (exec (removeFile index) st).
Proof.
  rewrite removeFile_exec. apply accepted_consistent.
Qed.

Lemma submit_consistent {number : Type} (numberToString : number -> string)
    (network : Settled (Response number)) (st : State) :
  consistent st -> consistent (exec (submit numberToString network) st).
Proof.
  intro H. unfold submit. rewrite exec_bind. unfold exec at 2, eval.
  destruct (selectedFiles st) as [|f l] eqn:E.
  - rewrite (generateTestCases_idle network st E). cbn [fst snd]. exact H.
  - assert (Hne : selectedFiles st <> []) by (rewrite E; discriminate).
    destruct H as [Hhtml Hbtn].
    rewrite (generateTestCases_run network st Hne).
    assert (Hkeep : forall st' : State,
               selectedFiles st' = selectedFiles st ->
               selectedFilesDiv_innerHTML st' = selectedFilesDiv_innerHTML st ->
               generateBtn_disabled st' = false ->
               consistent st').
    { intros st' Hs Hh Hb. split.
      - rewrite Hh, Hs. exact Hhtml.
      - rewrite Hb, Hs, E. reflexivity. }
    destruct network as [response|error].
    + destruct (json response) as [data|error] eqn:J.
      * rewrite (generateTestCases_settle_json response data _ J). cbn [fst snd].
        rewrite displayResults_exec. destruct (success data).
        -- apply accepted_consistent.
        -- apply Hkeep; reflexivity.
      * rewrite (generateTestCases_settle_not_json response error _ J). cbn [fst snd].
        apply Hkeep; reflexivity.
    + rewrite generateTestCases_settle_rejected. cbn [fst snd].
      apply Hkeep; reflexivity.
Qed.

(** X10.  When every submission runs to its end before the next event, the
    page stays consistent: after any sequence of [addFiles], [removeFile] and
    whole submissions, the rendered list is the rendering of the selection
    list, and the submit button is disabled exactly when the list is empty. *)
Theorem run_consistent :
  forall (number : Type) (numberToString : number -> string)
         (events : list (Event number)) (st : State),
    consistent st ->
    selectedFilesDiv_innerHTML (exec (run numberToString events) st)
    = fileListHtml (selectedFiles (exec (run numberToString events) st))
    /\ (generateBtn_disabled (exec (run numberToString events) st) = true
        <-> selectedFiles (exec (run numberToString events) st) = []).
Proof.
  intros number numberToString events st H.
  assert (Hrun : consistent (exec (run numberToString events) st)).
  { unfold run. apply forEach_invariant; [|exact H].
    intros [files|index|network] st' H'; cbn [handle].
    - now apply addFiles_consistent.
    - apply removeFile_consistent.
    - now apply submit_consistent. }
  destruct Hrun as [Hhtml Hbtn]. split; [exact Hhtml|].
  rewrite Hbtn. destruct (selectedFiles (exec (run numberToString events) st)); simpl.
  - tauto.
  - split; discriminate.
Qed.

Lemma run_consistent_witness :
  generateBtn_disabled
    (exec (run JS.natToString
             [AddFiles [Sample.a_pdf]; Submit Sample.offline; RemoveFile 0])
       Sample.page)
  = true
  <-> selectedFiles
        (exec (run JS.natToString
                 [AddFiles [Sample.a_pdf]; Submit Sample.offline; RemoveFile 0])
           Sample.page)
      = [].
Proof.
  assert (H : consistent Sample.page) by (split; reflexivity).
  exact (proj2 (run_consistent N JS.natToString
                  [AddFiles [Sample.a_pdf]; Submit Sample.offline; RemoveFile 0]
                  Sample.page H)).
Defined.

(** X11.  The [else] of that rule is missing in [displayResults]: when the
    only selected file is removed while its request is in flight and the
    response then reports a failure, the page ends with an empty selection
    list and an enabled submit button. *)
Theorem removed_in_flight_leaves_button_enabled :
  forall (number : Type) (numberToString : number -> string)
         (response : Response number) (data : BatchResponse number)
         (file : File) (p : Page),
    selectedFiles (app p) = [file] ->
    generateBtn_disabled (app p) = false ->
    json response = Fulfilled data ->
    success data = false ->
    selectedFiles
      (app (pageRun numberToString
              [ClickGenerate; ClickRemove 0; RequestSettles (Fulfilled response);
               ResultsTimer data] p))
    = []
    /\ generateBtn_disabled
         (app (pageRun numberToString
                 [ClickGenerate; ClickRemove 0; RequestSettles (Fulfilled response);
                  ResultsTimer data] p))
       = false.
Proof.
  intros number numberToString response data file p Hs Hb Hjson Hfail.
  assert (Hne : selectedFiles (app p) <> []) by (rewrite Hs; discriminate).
  assert (Hsend : exec generateTestCases_send (app p) = awaiting (app p))
    by (unfold exec; now rewrite (generateTestCases_send_run (app p) Hne)).
  assert (Hsettle : forall st,
             exec (generateTestCases_settle (Fulfilled response)) st
             = set_progressText_textContent "Hoàn thành!"
                 (set_progressFill_width "100%" st))
    by (intro st; unfold exec;
        now rewrite (generateTestCases_settle_json response data st Hjson)).
  unfold pageRun. cbn [fold_left pageHandle]. rewrite Hb. unfold onApp. cbn [app set_app].
  rewrite Hsend, removeFile_exec, Hsettle, displayResults_exec, Hfail.
  split; [|reflexivity].
  change (fst (JS.splice (selectedFiles (app p)) 0 1) = []).
  rewrite Hs. reflexivity.
Qed.

Lemma removed_in_flight_leaves_button_enabled_witness :
  selectedFiles
    (app (pageRun JS.natToString
            [ClickGenerate; ClickRemove 0;
             RequestSettles (Fulfilled {| json := Fulfilled Sample.failedResponse |});
             ResultsTimer Sample.failedResponse]
            (set_app (exec (addFiles [Sample.a_pdf]) Sample.page) samplePage)))
  = []
  /\ generateBtn_disabled
       (app (pageRun JS.natToString
               [ClickGenerate; ClickRemove 0;
                RequestSettles (Fulfilled {| json := Fulfilled Sample.failedResponse |});
                ResultsTimer Sample.failedResponse]
               (set_app (exec (addFiles [Sample.a_pdf]) Sample.page) samplePage)))
     = false.
Proof.
  exact (removed_in_flight_leaves_button_enabled N JS.natToString
           {| json := Fulfilled Sample.failedResponse |} Sample.failedResponse
           Sample.a_pdf
           (set_app (exec (addFiles [Sample.a_pdf]) Sample.page) samplePage)
           eq_refl eq_refl eq_refl eq_refl).
Defined.

Lemma awaiting_requests (st : State) :
  List.length (requests (awaiting st)) = S (List.length (requests st)).
Proof.
  unfold awaiting. cbn [requests set_requests]. rewrite length_app. simpl. lia.
Qed.

Lemma accepted_requests (selected : list File) (st : State) :
  requests (accepted selected st) = requests st.
Proof. reflexivity. Qed.

(** X12.  Nothing keeps a second request from being sent while the first is
    in flight: the click disables the submit button, but any call of
    [addFiles] that accepts its batch enables it again, and the next click
    sends the selection once more. *)
Theorem second_request_while_in_flight :
  forall (number : Type) (numberToString : number -> string) (file : File) (p : Page),
    selectedFiles (app p) <> [] ->
    generateBtn_disabled (app p) = false ->
    acceptable file ->
    generateBtn_disabled
      (app (pageRun numberToString [ClickGenerate] p)) = true
    /\ generateBtn_disabled
         (app (pageRun numberToString [ClickGenerate; ChangeFileInput [file]] p)) = false
    /\ List.length
         (requests
            (app (pageRun numberToString
                    [ClickGenerate; ChangeFileInput [file]; ClickGenerate] p)))
       = 2 + List.length (requests (app p)).
Proof.
  intros number numberToString file p Hne Hb Hok.
  unfold pageRun. cbn [fold_left pageHandle handleFileSelect snd freshEvent event_files].
  rewrite Hb. unfold onApp. cbn [app set_app].
  assert (Hsend : exec generateTestCases_send (app p) = awaiting (app p))
    by (unfold exec; now rewrite (generateTestCases_send_run (app p) Hne)).
  rewrite Hsend. split; [reflexivity|].
  rewrite (addFiles_single file _ Hok).
  assert (Hlist : appendNew (selectedFiles (awaiting (app p))) file <> []).
  { change (selectedFiles (awaiting (app p))) with (selectedFiles (app p)).
    destruct (appendNew_extends (selectedFiles (app p)) file) as (added & -> & _).
    destruct (selectedFiles (app p)); [contradiction | discriminate]. }
  assert (Hon : generateBtn_disabled
                  (accepted (appendNew (selectedFiles (awaiting (app p))) file)
                     (awaiting (app p))) = false).
  { unfold accepted. cbn [generateBtn_disabled set_generateBtn_disabled].
    destruct (appendNew (selectedFiles (awaiting (app p))) file);
      [contradiction | reflexivity]. }
  split; [exact Hon|].
  rewrite Hon. unfold exec.
  rewrite generateTestCases_send_run by (rewrite accepted_selectedFiles; exact Hlist).
  cbn [snd app set_app].
  rewrite awaiting_requests, accepted_requests, awaiting_requests.
  reflexivity.
Qed.

Lemma second_request_while_in_flight_witness :
  List.length
    (requests
       (app (pageRun JS.natToString
               [ClickGenerate; ChangeFileInput [Sample.b_pdf]; ClickGenerate]
               (set_app (exec (addFiles [Sample.a_pdf]) Sample.page) samplePage))))
  = 2 + List.length
          (requests (app (set_app (exec (addFiles [Sample.a_pdf]) Sample.page) samplePage))).
Proof.
  assert (Hne : selectedFiles
                  (app (set_app (exec (addFiles [Sample.a_pdf]) Sample.page) samplePage))
                <> []) by (vm_compute; discriminate).
  assert (Hok : acceptable Sample.b_pdf)
    by (split; [reflexivity | vm_compute; discriminate]).
  exact (proj2 (proj2 (second_request_while_in_flight N JS.natToString Sample.b_pdf
                         (set_app (exec (addFiles [Sample.a_pdf]) Sample.page) samplePage)
                         Hne eq_refl Hok))).
Defined.

(** ** Sizes as they are shown *)

Lemma unitIndex_lt (bytes n : N) :
  (1 <= bytes)%N -> (bytes < 1024 ^ n)%N -> (unitIndex bytes < n)%N.
Proof.
  intros H1 Hn. pose proof (unitIndex_spec bytes H1) as [Hlow _].
  assert (Hlt : (1024 ^ unitIndex bytes < 1024 ^ n)%N) by lia.
  apply N.pow_lt_mono_r_iff in Hlt; lia.
Qed.

Lemma roundDiv_by_1 (a : N) : JS.roundDiv a 1 = a.
Proof.
  unfold JS.roundDiv. symmetry. apply N.div_unique with (r := 1%N); lia.
Qed.

Lemma hundredthsToString_whole (n : N) :
  JS.hundredthsToString (n * 100) = JS.natToString n.
Proof.
  unfold JS.hundredthsToString.
  rewrite N.Div0.mod_mul, N.div_mul by lia. reflexivity.
Qed.

(** X13.  A size below 1 KiB is shown as its exact number of bytes: for
    0 < bytes < 1024, [formatFileSize] gives the decimal of [bytes] followed
    by " Bytes", with no rounding. *)
Theorem formatFileSize_bytes :
  forall bytes : N,
    (1 <= bytes < 1024)%N ->
    formatFileSize bytes = JS.natToString bytes ++ " Bytes".
Proof.
  intros bytes [H1 H2].
  assert (Hi : unitIndex bytes = 0%N).
  { pose proof (unitIndex_lt bytes 1 H1) as Hlt. rewrite N.pow_1_r in Hlt.
    specialize (Hlt H2). lia. }
  rewrite formatFileSize_unfold, Hi by exact H1.
  rewrite N.pow_0_r, roundDiv_by_1, hundredthsToString_whole. reflexivity.
Qed.

Lemma formatFileSize_bytes_witness :
  formatFileSize 1023 = JS.natToString 1023 ++ " Bytes".
Proof.
  assert (H : (1 <= 1023 < 1024)%N) by (split; [vm_compute; discriminate | reflexivity]).
  exact (formatFileSize_bytes 1023 H).
Defined.

(** X14.  For a size from 1 byte up to, but not including, 1024^4 bytes, the
    unit written by [formatFileSize] is one of Bytes, KB, MB and GB: the one
    of the largest power of 1024 that does not exceed the size.  The amount
    written is the size in that unit rounded to the nearest hundredth, a
    number from 1 to 1024. *)
Theorem formatFileSize_unit_and_amount :
  forall bytes : N,
    (1 <= bytes < 1024 ^ 4)%N ->
    (1024 ^ unitIndex bytes <= bytes < 1024 ^ (unitIndex bytes + 1))%N
    /\ (2 * 1024 ^ unitIndex bytes
          * JS.roundDiv (bytes * 100) (1024 ^ unitIndex bytes)
        <= 2 * (bytes * 100) + 1024 ^ unitIndex bytes
        < 2 * 1024 ^ unitIndex bytes
          * (JS.roundDiv (bytes * 100) (1024 ^ unitIndex bytes) + 1))%N
    /\ (100 <= JS.roundDiv (bytes * 100) (1024 ^ unitIndex bytes) <= 102400)%N
    /\ exists unit,
         nth_error sizes (N.to_nat (unitIndex bytes)) = Some unit
         /\ formatFileSize bytes
            = JS.hundredthsToString (JS.roundDiv (bytes * 100) (1024 ^ unitIndex bytes))
                ++ " " ++ unit.
Proof.
  intros bytes [H1 H4].
  pose proof (unitIndex_spec bytes H1) as Hspec.
  pose proof (unitIndex_lt bytes 4 H1 H4) as Hi.
  assert (Hpos : (0 < 1024 ^ unitIndex bytes)%N)
    by (apply N.neq_0_lt_0, N.pow_nonzero; discriminate).
  pose proof (roundDiv_spec (bytes * 100) (1024 ^ unitIndex bytes) Hpos) as Hround.
  split; [exact Hspec|]. split; [exact Hround|]. split.
  - replace (unitIndex bytes + 1)%N with (N.succ (unitIndex bytes)) in Hspec by lia.
    rewrite N.pow_succ_r' in Hspec.
    generalize dependent (JS.roundDiv (bytes * 100) (1024 ^ unitIndex bytes)).
    generalize dependent (1024 ^ unitIndex bytes)%N.
    intros b Hb Hspec h Hround. split; nia.
  - destruct (nth_error sizes (N.to_nat (unitIndex bytes))) as [unit|] eqn:E.
    + exists unit. split; [reflexivity|].
      rewrite formatFileSize_unfold, E by exact H1. reflexivity.
    + apply nth_error_None in E. simpl in E. lia.
Qed.

Lemma formatFileSize_unit_and_amount_witness :
  (100 <= JS.roundDiv (1500 * 100) (1024 ^ unitIndex 1500) <= 102400)%N.
Proof.
  assert (H : (1 <= 1500 < 1024 ^ 4)%N)
    by (split; [vm_compute; discriminate | reflexivity]).
  pose proof (formatFileSize_unit_and_amount 1500 H) as (_ & _ & Hamount & _).
  exact Hamount.
Defined.

(** ** The rendered list *)





(** ** The rendered results *)

Lemma join_app (l l' : list string) : JS.join (l ++ l') = JS.join l ++ JS.join l'.
Proof.
  induction l as [|x l IH]; simpl; [reflexivity|].
  now rewrite IH, append_assoc.
Qed.

(** X16.  [displayResults] renders the items in the order of the response:
    when item [a] comes before item [b] in [data.results], the block of [a]
    comes before the block of [b] in the results. *)
Theorem displayResults_keeps_order :
  forall (number : Type) (numberToString : number -> string)
         (data : BatchResponse number) (st : State)
         (a b : ResultItem number) (before between after : list (ResultItem number)),
    results data = (before ++ a :: between ++ b :: after)%list ->
    exists x y z,
      resultsContent_innerHTML (exec (displayResults numberToString data) st)
      = x ++ renderResult numberToString a ++ y ++ renderResult numberToString b ++ z.
Proof.
  intros number numberToString data st a b before between after H.
  rewrite displayResults_html. unfold resultsHtml. rewrite H.
  exists ((if success data then renderSummary numberToString data else "")
          ++ JS.join (map (renderResult numberToString) before)),
    (JS.join (map (renderResult numberToString) between)),
    (JS.join (map (renderResult numberToString) after)).
  rewrite map_app, join_app. cbn [map JS.join fold_right].
  rewrite map_app, join_app. cbn [map JS.join fold_right].
  now rewrite !append_assoc.
Qed.

Lemma displayResults_keeps_order_witness :
  exists x y z,
    resultsContent_innerHTML
      (exec (displayResults JS.natToString
               {| success := false; successful_files := 1%N; total_files := 2%N;
                  results := [ItemFailure "b.pdf" "parse failed";
                              ItemSuccess "a.pdf" 12%N 85%N "Sheet" "https://x"] |})
         Sample.twoSelected)
    = x ++ renderResult JS.natToString (ItemFailure "b.pdf" "parse failed")
        ++ y ++ renderResult JS.natToString (ItemSuccess "a.pdf" 12%N 85%N "Sheet" "https://x")
        ++ z.
Proof.
  exact (displayResults_keeps_order N JS.natToString
           {| success := false; successful_files := 1%N; total_files := 2%N;
              results := [ItemFailure "b.pdf" "parse failed";
                          ItemSuccess "a.pdf" 12%N 85%N "Sheet" "https://x"] |}
           Sample.twoSelected
           (ItemFailure "b.pdf" "parse failed")
           (ItemSuccess "a.pdf" 12%N 85%N "Sheet" "https://x")
           [] [] [] eq_refl).
Defined.

Lemma renderResult_success_parts {number : Type} (numberToString : number -> string)
    (filename : string) (total_test_cases coverage_percentage : number)
    (worksheet_name sheet_url : string) :
  let block :=
    renderResult numberToString
      (ItemSuccess filename total_test_cases coverage_percentage worksheet_name sheet_url) in
  occursIn (filenameDiv filename) block
  /\ occursIn (statValueSpan (numberToString total_test_cases)) block
  /\ occursIn (statValueSpan (numberToString coverage_percentage ++ "%")) block
  /\ occursIn (sheetAnchorOpen sheet_url) block.
Proof.
  cbv zeta. split; [|split; [|split]].
  - exists (JS.nl ++ "                <div class=" ++ JS.q "result-item" ++ ">" ++ JS.nl
            ++ "                    ").
    eexists. unfold filenameDiv, renderResult. rewrite !append_assoc. reflexivity.
  - exists (JS.nl ++ "                <div class=" ++ JS.q "result-item" ++ ">" ++ JS.nl
            ++ "                    <div class=" ++ JS.q "result-filename" ++ ">📄 "
            ++ filename ++ "</div>" ++ JS.nl
            ++ "                    <div class=" ++ JS.q "result-stats" ++ ">" ++ JS.nl
            ++ "                        <div class=" ++ JS.q "stat-item" ++ ">" ++ JS.nl
            ++ "                            <span class=" ++ JS.q "stat-label"
            ++ ">Test Cases</span>" ++ JS.nl
            ++ "                            ").
    eexists. unfold statValueSpan, renderResult. rewrite !append_assoc. reflexivity.
  - exists (JS.nl ++ "                <div class=" ++ JS.q "result-item" ++ ">" ++ JS.nl
            ++ "                    <div class=" ++ JS.q "result-filename" ++ ">📄 "
            ++ filename ++ "</div>" ++ JS.nl
            ++ "                    <div class=" ++ JS.q "result-stats" ++ ">" ++ JS.nl
            ++ "                        <div class=" ++ JS.q "stat-item" ++ ">" ++ JS.nl
            ++ "                            <span class=" ++ JS.q "stat-label"
            ++ ">Test Cases</span>" ++ JS.nl
            ++ "                            <span class=" ++ JS.q "stat-value" ++ ">"
            ++ numberToString total_test_cases ++ "</span>" ++ JS.nl
            ++ "                        </div>" ++ JS.nl
            ++ "                        <div class=" ++ JS.q "stat-item" ++ ">" ++ JS.nl
            ++ "                            <span class=" ++ JS.q "stat-label"
            ++ ">Coverage</span>" ++ JS.nl
            ++ "                            ").
    eexists. unfold statValueSpan, renderResult. rewrite !append_assoc. reflexivity.
  - exists (JS.nl ++ "                <div class=" ++ JS.q "result-item" ++ ">" ++ JS.nl
            ++ "                    <div class=" ++ JS.q "result-filename" ++ ">📄 "
            ++ filename ++ "</div>" ++ JS.nl
            ++ "                    <div class=" ++ JS.q "result-stats" ++ ">" ++ JS.nl
            ++ "                        <div class=" ++ JS.q "stat-item" ++ ">" ++ JS.nl
            ++ "                            <span class=" ++ JS.q "stat-label"
            ++ ">Test Cases</span>" ++ JS.nl
            ++ "                            <span class=" ++ JS.q "stat-value" ++ ">"
            ++ numberToString total_test_cases ++ "</span>" ++ JS.nl
            ++ "                        </div>" ++ JS.nl
            ++ "                        <div class=" ++ JS.q "stat-item" ++ ">" ++ JS.nl
            ++ "                            <span class=" ++ JS.q "stat-label"
            ++ ">Coverage</span>" ++ JS.nl
            ++ "                            <span class=" ++ JS.q "stat-value" ++ ">"
            ++ numberToString coverage_percentage ++ "%</span>" ++ JS.nl
            ++ "                        </div>" ++ JS.nl
            ++ "                        <div class=" ++ JS.q "stat-item" ++ ">" ++ JS.nl
            ++ "                            <span class=" ++ JS.q "stat-label"
            ++ ">Worksheet</span>" ++ JS.nl
            ++ "                            <span class=" ++ JS.q "stat-value" ++ " style="
            ++ JS.q "font-size: 0.9rem;" ++ ">" ++ JS.substring worksheet_name 0 20
            ++ "...</span>" ++ JS.nl
            ++ "                        </div>" ++ JS.nl
            ++ "                    </div>" ++ JS.nl
            ++ "                    ").
    eexists. unfold sheetAnchorOpen, renderResult. rewrite !append_assoc. reflexivity.
Qed.

Lemma renderSummary_text {number : Type} (numberToString : number -> string)
    (data : BatchResponse number) :
  occursIn
    (summaryText (numberToString (successful_files data)) (numberToString (total_files data)))
    (renderSummary numberToString data).
Proof.
  exists ("<div class=" ++ JS.q "result-summary" ++ ">" ++ JS.nl ++ "            <p>").
  eexists. unfold summaryText, renderSummary. rewrite !append_assoc. reflexivity.
Qed.

(** X17.  What the results show.  For every success item of the response:
    its file name, its number of test cases, its coverage followed by "%",
    and a link to its sheet URL that opens in a new browsing context.  For
    every failed item: its file name.  And when the batch flag is true, the
    summary line with the two counts. *)
Theorem displayResults_item_details :
  forall (number : Type) (numberToString : number -> string)
         (data : BatchResponse number) (st : State),
    (forall filename total_test_cases coverage_percentage worksheet_name sheet_url,
        In (ItemSuccess filename total_test_cases coverage_percentage worksheet_name sheet_url)
           (results data) ->
        occursIn (filenameDiv filename)
          (resultsContent_innerHTML (exec (displayResults numberToString data) st))
        /\ occursIn (statValueSpan (numberToString total_test_cases))
             (resultsContent_innerHTML (exec (displayResults numberToString data) st))
        /\ occursIn (statValueSpan (numberToString coverage_percentage ++ "%"))
             (resultsContent_innerHTML (exec (displayResults numberToString data) st))
        /\ occursIn (sheetAnchorOpen sheet_url)
             (resultsContent_innerHTML (exec (displayResults numberToString data) st)))
    /\ (forall filename error,
           In (ItemFailure filename error) (results data) ->
           occursIn (filenameDiv filename)
             (resultsContent_innerHTML (exec (displayResults numberToString data) st)))
    /\ (success data = true ->
        occursIn
          (summaryText (numberToString (successful_files data))
             (numberToString (total_files data)))
          (resultsContent_innerHTML (exec (displayResults numberToString data) st))).
Proof.
  intros number numberToString data st. rewrite displayResults_html.
  split; [|split].
  - intros filename total_test_cases coverage_percentage worksheet_name sheet_url Hin.
    pose proof (resultsHtml_item numberToString data _ Hin) as Hblock.
    destruct (renderResult_success_parts numberToString filename total_test_cases
                coverage_percentage worksheet_name sheet_url) as (H1 & H2 & H3 & H4).
    repeat split; eapply occursIn_trans; eauto.
  - intros filename error Hin.
    pose proof (resultsHtml_item numberToString data _ Hin) as Hblock.
    eapply occursIn_trans; [|exact Hblock].
    exists (JS.nl ++ "                <div class=" ++ JS.q "result-item error" ++ ">" ++ JS.nl
            ++ "                    ").
    eexists. unfold filenameDiv, renderResult. rewrite !append_assoc. reflexivity.
  - intro H. unfold resultsHtml. rewrite H.
    apply occursIn_append_l, renderSummary_text.
Qed.

Lemma displayResults_item_details_witness :
  occursIn (statValueSpan "85%")
    (resultsContent_innerHTML
       (exec (displayResults JS.natToString Sample.okResponse) Sample.twoSelected))
  /\ occursIn (summaryText "1" "1")
       (resultsContent_innerHTML
          (exec (displayResults JS.natToString Sample.okResponse) Sample.twoSelected)).
Proof.
  pose proof (displayResults_item_details N JS.natToString Sample.okResponse
                Sample.twoSelected) as (Hitem & _ & Hsummary).
  destruct (Hitem "a.pdf" 12%N 85%N "Sheet For A Very Long Name Indeed" "https://x"
              (or_introl eq_refl)) as (_ & _ & Hcoverage & _).
  split; [exact Hcoverage | exact (Hsummary eq_refl)].
Defined.

(** ** The configuration *)

(** X18.  [loadConfig] is best effort and touches nothing of the controller.
    When the request succeeds with a true [success] flag, the model name and
    the coverage target followed by "%" are written to the two display
    fields.  In every other case (the request fails, the body does not parse,
    the flag is false) the page stays exactly as it was.  In no case does
    the selection, the button, an alert or a request change. *)
Theorem loadConfig_best_effort :
  forall (number : Type) (numberToString : number -> string)
         (network : Settled (ConfigApi.Response number)) (p : Page),
    (forall data,
        configLoaded network data ->
        modelInfo_textContent (loadConfig numberToString network p)
        = ConfigApi.model (ConfigApi.config data)
        /\ coverageInfo_textContent (loadConfig numberToString network p)
           = numberToString (ConfigApi.coverage_target (ConfigApi.config data)) ++ "%")
    /\ ((forall data, ~ configLoaded network data) ->
        loadConfig numberToString network p = p)
    /\ app (loadConfig numberToString network p) = app p
    /\ uploadArea_dragOver (loadConfig numberToString network p) = uploadArea_dragOver p.
Proof.
  intros number numberToString network p. split; [|split; [|split]].
  - intros data (response & -> & Hjson & Hok).
    unfold loadConfig. rewrite Hjson, Hok. split; reflexivity.
  - intro Hnot. unfold loadConfig.
    destruct network as [response|error]; [|reflexivity].
    destruct (ConfigApi.json response) as [data|error] eqn:J; [|reflexivity].
    destruct (ConfigApi.success data) eqn:S; [|reflexivity].
    exfalso. apply (Hnot data). exists response. repeat split; assumption.
  - apply loadConfig_app.
  - unfold loadConfig.
    destruct network as [response|error]; [|reflexivity].
    destruct (ConfigApi.json response) as [data|error]; [|reflexivity].
    destruct (ConfigApi.success data); reflexivity.
Qed.

Lemma loadConfig_best_effort_witness :
  modelInfo_textContent
    (loadConfig JS.natToString
       (Fulfilled {| ConfigApi.json := Fulfilled sampleConfig |}) samplePage)
  = "gpt"
  /\ coverageInfo_textContent
       (loadConfig JS.natToString
          (Fulfilled {| ConfigApi.json := Fulfilled sampleConfig |}) samplePage)
     = "90%"
  /\ loadConfig JS.natToString (Rejected {| message := "Failed to fetch" |}) samplePage
     = samplePage.
Proof.
  pose proof (loadConfig_best_effort N JS.natToString
                (Fulfilled {| ConfigApi.json := Fulfilled sampleConfig |}) samplePage)
    as (Hloaded & _).
  pose proof (loadConfig_best_effort N JS.natToString
                (Rejected {| message := "Failed to fetch" |}) samplePage)
    as (_ & Hfailed & _).
  assert (Hc : configLoaded (Fulfilled {| ConfigApi.json := Fulfilled sampleConfig |})
                 sampleConfig)
    by (exists {| ConfigApi.json := Fulfilled sampleConfig |}; repeat split).
  assert (Hn : forall data : ConfigApi.Data N,
             ~ configLoaded (Rejected {| message := "Failed to fetch" |}) data)
    by (intros data (response & H & _); discriminate H).
  destruct (Hloaded sampleConfig Hc) as [Hmodel Hcoverage].
  split; [exact Hmodel|]. split; [exact Hcoverage | exact (Hfailed Hn)].
Defined.

(** ** Drag and drop *)



(** ** Eligibility and retry *)

(** X20.  A call of [addFiles] that issues no warning leaves a selection that
    is not empty, an enabled submit button and a rendered list that is not
    empty. *)
Theorem addFiles_enables_submit :
  forall (files : list File) (st : State),
    alerts (exec (addFiles files) st) = alerts st ->
    selectedFiles (exec (addFiles files) st) <> []
    /\ generateBtn_disabled (exec (addFiles files) st) = false
    /\ selectedFilesDiv_innerHTML (exec (addFiles files) st)
       = JS.join (JS.mapi fileRow (selectedFiles (exec (addFiles files) st))).
Proof.
  intros files st Hquiet.
  destruct (addFiles_cases files st) as [[_ H]|[(first & rest & _ & H)|(Hne & _ & H)]].
  - rewrite H in Hquiet. simpl in Hquiet.
    apply (f_equal (@List.length string)) in Hquiet.
    rewrite length_app in Hquiet. simpl in Hquiet. lia.
  - rewrite H in Hquiet. simpl in Hquiet.
    apply (f_equal (@List.length string)) in Hquiet.
    rewrite length_app in Hquiet. simpl in Hquiet. lia.
  - rewrite H.
    assert (Hlist : fold_left appendNew (filter isPdf files) (selectedFiles st) <> []).
    { destruct (filter isPdf files) as [|file pdfs] eqn:E; [contradiction|].
      pose proof (fold_appendNew_listed (file :: pdfs) (selectedFiles st) file
                    (or_introl eq_refl)) as Hin.
      intro Hnil. rewrite Hnil in Hin. exact Hin. }
    unfold accepted, fileListHtml.
    cbn [selectedFiles generateBtn_disabled selectedFilesDiv_innerHTML
         set_generateBtn_disabled set_selectedFilesDiv_innerHTML set_selectedFiles].
    destruct (fold_left appendNew (filter isPdf files) (selectedFiles st)) as [|f l];
      [contradiction|].
    repeat split. discriminate.
Qed.

Lemma addFiles_enables_submit_witness :
  generateBtn_disabled (exec (addFiles [Sample.a_pdf]) Sample.page) = false.
Proof.
  assert (Hquiet : alerts (exec (addFiles [Sample.a_pdf]) Sample.page) = alerts Sample.page)
    by reflexivity.
  exact (proj1 (proj2 (addFiles_enables_submit [Sample.a_pdf] Sample.page Hquiet))).
Defined.

(** X21.  After a submission whose request throws, the user can retry at
    once: the submit button is enabled, and a second submission sends the
    same files and the same target count again. *)
Theorem retry_after_failure :
  forall (number : Type) (network again : Settled (Response number)) (error : Error)
         (st : State),
    selectedFiles st <> [] ->
    requestThrows network error ->
    generateBtn_disabled (exec (generateTestCases network) st) = false
    /\ requests (exec (generateTestCases again) (exec (generateTestCases network) st))
       = (requests st
            ++ [{| form_files := selectedFiles st;
                   form_target_count := targetCountInput_value st |};
                {| form_files := selectedFiles st;
                   form_target_count := targetCountInput_value st |}])%list.
Proof.
  intros number network again error st Hne Hthrows.
  assert (Hfirst : exists st1,
             exec (generateTestCases network) st = st1
             /\ selectedFiles st1 = selectedFiles st
             /\ targetCountInput_value st1 = targetCountInput_value st
             /\ generateBtn_disabled st1 = false
             /\ requests st1
                = (requests st
                     ++ [{| form_files := selectedFiles st;
                            form_target_count := targetCountInput_value st |}])%list).
  { unfold exec. rewrite (generateTestCases_run network st Hne).
    destruct Hthrows as [->|(response & -> & Hjson)].
    - rewrite generateTestCases_settle_rejected. eexists. repeat split.
    - rewrite (generateTestCases_settle_not_json response error _ Hjson).
      eexists. repeat split. }
  destruct Hfirst as (st1 & -> & Hs & Ht & Hb & Hr).
  split; [exact Hb|].
  assert (Hne1 : selectedFiles st1 <> []) by (rewrite Hs; exact Hne).
  assert (Hsecond : requests (exec (generateTestCases again) st1)
                    = (requests st1
                         ++ [{| form_files := selectedFiles st1;
                                form_target_count := targetCountInput_value st1 |}])%list).
  { unfold exec. rewrite (generateTestCases_run again st1 Hne1).
    destruct again as [response|error'].
    - destruct (json response) as [data|error'] eqn:J.
      + now rewrite (generateTestCases_settle_json response data _ J).
      + now rewrite (generateTestCases_settle_not_json response error' _ J).
    - now rewrite generateTestCases_settle_rejected. }
  rewrite Hsecond, Hr, Hs, Ht, <- app_assoc. reflexivity.
Qed.

Lemma retry_after_failure_witness :
  generateBtn_disabled (exec (generateTestCases Sample.offline) Sample.twoSelected) = false
  /\ List.length
       (requests
          (exec (generateTestCases Sample.offline)
             (exec (generateTestCases Sample.offline) Sample.twoSelected)))
     = 2.
Proof.
  assert (Hne : selectedFiles Sample.twoSelected <> []) by (vm_compute; discriminate).
  assert (Hthrows : requestThrows Sample.offline {| message := "Failed to fetch" |})
    by (left; reflexivity).
  pose proof (retry_after_failure N Sample.offline Sample.offline
                {| message := "Failed to fetch" |} Sample.twoSelected Hne Hthrows)
    as [Hbtn Hreq].
  split; [exact Hbtn|]. rewrite Hreq. reflexivity.
Defined.
